(** * skinSR: adversarial training controllers, checkpoints and configuration

    A shallow embedding of [edge_informed_SISR/src/models.py] (the classes
    [BaseModel], [EdgeModel], [SRModel], [GradientModel]) and of
    [unet_unet++/src/config.py] (the class [Config]), with the properties
    of the training protocol, of the checkpoint store and of the
    configuration object proved about them. *)

From Stdlib Require Import ZArith QArith Qcanon List Ascii String Lia.
From stdpp Require Import gmap strings list fin_maps.
Import ListNotations.

Local Open Scope string_scope.
Local Open Scope Z_scope.

(** ** Python results *)

(** The exceptions the modelled code can raise. *)
Inductive exn :=
| KeyError (key : string)
| IndexError
| AttributeError (attr : string)
| RuntimeError (msg : string).

(** A call either returns a value or raises. *)
Inductive result (A : Type) :=
| Ok (a : A)
| Raise (e : exn).
Arguments Ok {A} a.
Arguments Raise {A} e.

(** ** config.py *)

(** The values a YAML document holds. *)
#[local] Unset Elimination Schemes.
Inductive pyvalue :=
| PyNone
| PyBool (b : bool)
| PyInt (z : Z)
| PyFloat (q : Qc)
| PyStr (s : string)
| PyList (l : list pyvalue).
#[local] Set Elimination Schemes.

(** [v is not None] *)
Definition is_not_None (v : pyvalue) : bool :=
  match v with
  | PyNone => false
  | _ => true
  end.

(** [d.get(key)]: the value, or [None] for a key that is not there. *)
Definition dict_get (d : gmap string pyvalue) (key : string) : pyvalue :=
  match d !! key with
  | Some v => v
  | None => PyNone
  end.

(** [d[key]]: the value, or [KeyError]. *)
Definition dict_getitem (d : gmap string pyvalue) (key : string) : result pyvalue :=
  match d !! key with
  | Some v => Ok v
  | None => Raise (KeyError key)
  end.

Module Config.

(** The object: the text of the file and the parsed mapping. *)
Record t := mk {
  _yaml : string;
  _dict : gmap string pyvalue
}.

(** [__init__]: [configfile_text] is what [configfile.read()] returns,
    [parsed] what [yaml.load] makes of it and [dirname] the value of
    [os.path.dirname(config_path)]. *)
Definition __init__ (configfile_text : string)
    (parsed : gmap string pyvalue) (dirname : string) : t :=
  {| _yaml := configfile_text;
     _dict := <["PATH" := PyStr dirname]> parsed |}.

(** [__getattr__]: the one live branch returns the stored value; every
    other path falls off the end of the function, which returns [None]. *)
Definition __getattr__ (self : t) (key : string) : result pyvalue :=
  if is_not_None (dict_get (_dict self) key)
  then dict_getitem (_dict self) key
  else Ok PyNone.

(** The class attribute [DEFAULT_CONFIG]. *)
Definition DEFAULT_CONFIG : gmap string pyvalue :=
  list_to_map [
    ("MODE", PyInt 1);
    ("MODEL", PyInt 1);
    ("SCALE", PyInt 4);
    ("SEED", PyInt 10);
    ("GPU", PyList [PyInt 0]);
    ("DEBUG", PyInt 0);
    ("VERBOSE", PyInt 0);
    ("LR", PyFloat (Q2Qc (1 # 10000)));
    ("BETA1", PyFloat (Q2Qc 0));
    ("BETA2", PyFloat (Q2Qc (9 # 10)));
    ("BATCH_SIZE", PyInt 8);
    ("HR_SIZE", PyInt 256);
    ("SIGMA", PyInt 2);
    ("MAX_ITERS", PyFloat (Q2Qc 20000000));
    ("EDGE_THRESHOLD", PyFloat (Q2Qc (1 # 2)));
    ("L1_LOSS_WEIGHT", PyInt 1);
    ("FM_LOSS_WEIGHT", PyInt 10);
    ("STYLE_LOSS_WEIGHT", PyInt 250);
    ("CONTENT_LOSS_WEIGHT", PyFloat (Q2Qc (1 # 10)));
    ("ADV_LOSS_WEIGHT1", PyFloat (Q2Qc (1 # 10)));
    ("ADV_LOSS_WEIGHT2", PyInt 1);
    ("GAN_LOSS", PyStr "hinge");
    ("MGE_LOSS_WEIGHT", PyFloat (Q2Qc (1 # 10)));
    ("SAVE_INTERVAL", PyInt 1000);
    ("SAMPLE_INTERVAL", PyInt 1000);
    ("SAMPLE_SIZE", PyInt 12);
    ("EVAL_INTERVAL", PyInt 0);
    ("LOG_INTERVAL", PyInt 10)
  ].

End Config.

(** ** Arrays and the torch functions the models call *)

(** A batch of images, [batch][channel][row][column]. *)
Abbreviation ndarray := (list (list (list (list Qc)))).

(** The parameters of a network, as its [state_dict()]: name to values. *)
Abbreviation network := (gmap string (list Qc)).

Definition sumQc (l : list Qc) : Qc := fold_right Qcplus (Q2Qc 0) l.

Definition pixel (ch : list (list Qc)) (i j : nat) : Qc :=
  nth j (nth i ch []) (Q2Qc 0).

(** [F.interpolate(x, scale_factor = s)], nearest neighbour: every pixel
    becomes an s×s block. *)
Definition interpolate_channel (s : nat) (ch : list (list Qc)) : list (list Qc) :=
  flat_map (fun row => repeat (flat_map (fun p => repeat p s) row) s) ch.

Definition F_interpolate (x : ndarray) (scale_factor : nat) : ndarray :=
  map (map (interpolate_channel scale_factor)) x.

(** [torch.cat((a, b), dim = 1)]: the channels of [b] after those of [a],
    image by image. *)
Definition torch_cat (a b : ndarray) : ndarray := zip_with app a b.

(** Transposed convolution along one axis: the input index that tap [k]
    of the kernel brings to output index [o], if there is one. *)
Definition tap_source (o k padding stride : nat) : option nat :=
  if (k <=? o + padding)%nat && ((o + padding - k) mod stride =? 0)%nat
  then Some ((o + padding - k) / stride)%nat
  else None.

(** One output pixel of a transposed convolution of channel [ch] with the
    kernel [w]: the sum, over the taps of the kernel, of the input pixel
    the tap brings there times the weight of the tap. *)
Definition conv_transpose2d_pixel (ch w : list (list Qc))
    (padding stride y x : nat) : Qc :=
  sumQc (map (fun ki =>
    sumQc (map (fun kj =>
      match tap_source y ki padding stride, tap_source x kj padding stride with
      | Some i, Some j =>
          if (i <? length ch)%nat && (j <? length (hd [] ch))%nat
          then (pixel ch i j * pixel w ki kj)%Qc
          else Q2Qc 0
      | _, _ => Q2Qc 0
      end) (seq 0 (length (hd [] w))))) (seq 0 (length w))).

(** The size of the output along one axis:
    (n - 1) * stride - 2 * padding + (k - 1) + 1. *)
Definition conv_transpose2d_size (n k padding stride : nat) : nat :=
  (n * stride + k - stride - 2 * padding)%nat.

Definition conv_transpose2d_channel (ch w : list (list Qc))
    (padding stride : nat) : list (list Qc) :=
  map (fun y =>
    map (fun x => conv_transpose2d_pixel ch w padding stride y x)
      (seq 0 (conv_transpose2d_size (length (hd [] ch)) (length (hd [] w)) padding stride)))
    (seq 0 (conv_transpose2d_size (length ch) (length w) padding stride)).

(** [F.conv_transpose2d(input, weight, padding, stride, groups)] for a
    weight of shape (C, 1, kh, kw) and [groups] = C, the call the source
    makes: channel c is convolved with [weight[c][0]] alone. *)
Definition F_conv_transpose2d (input weight : ndarray)
    (padding stride groups : nat) : ndarray :=
  map (fun img =>
    zip_with (fun ch w => conv_transpose2d_channel ch (hd [] w) padding stride)
      img (take groups weight)) input.

(** [np.zeros((n, m))] *)
Definition np_zeros (n m : nat) : list (list Qc) := repeat (repeat (Q2Qc 0) m) n.

(** [kernel[i, j] = v]; out of range raises. *)
Definition np_setitem (kernel : list (list Qc)) (i j : nat) (v : Qc)
    : result (list (list Qc)) :=
  match kernel !! i with
  | Some row =>
      if (j <? length row)%nat then Ok (<[i := <[j := v]> row]> kernel)
      else Raise IndexError
  | None => Raise IndexError
  end.

(** [np.tile(kernel, (c, 1, 1, 1))] *)
Definition np_tile (kernel : list (list Qc)) (c : nat) : ndarray :=
  repeat [kernel] c.

(** [l[::s]]: the first element and every s-th one after it; [skip]
    counts the elements still to pass over. *)
Fixpoint every_from {A : Type} (s skip : nat) (l : list A) : list A :=
  match l with
  | [] => []
  | a :: l' =>
      match skip with
      | O => a :: every_from s (s - 1) l'
      | S skip' => every_from s skip' l'
      end
  end.

(** [x[:, :, ::s, ::s]]: every s-th row and every s-th column. *)
Definition downsample (s : nat) (x : ndarray) : ndarray :=
  map (map (fun ch => map (every_from s 0) (every_from s 0 ch))) x.

(** ** Tensors with their autograd graph *)

(** The three controllers. *)
Inductive controller := Edge | SR | Gradient.

(** The two parameter sets of a controller. *)
Inductive net := Gen | Dis.

Global Instance net_eq_dec : EqDecision net.
Proof. solve_decision. Defined.

(** A tensor is the expression that produced it, which is what autograd
    keeps of it: a leaf without gradient, or an operation on tensors. *)
Inductive tensor :=
| from_data (x : ndarray)
| interpolate (t : tensor) (scale_factor : nat)
| conv_transpose2d (t : tensor) (weight : ndarray) (padding stride groups : nat)
| cat (a b : tensor)
| detach (t : tensor)
| generator_forward (inputs : tensor)
| discriminator_forward (inputs : tensor)
| discriminator_feature (i : nat) (inputs : tensor).

(** A scalar tensor, likewise: the loss modules and the arithmetic on
    their results. *)
Inductive loss :=
| adversarial_loss (outputs : tensor) (is_real is_disc : bool)
| L1_loss (a b : tensor)
| content_loss (a b : tensor)
| style_loss (a b : tensor)
| number (q : Qc)
| add (a b : loss)
| mul (a b : loss)
| div (a b : loss).

(** A Python number or a scalar tensor: [gen_loss = 0] is the first,
    [gen_loss += gen_gan_loss] makes it the second. *)
Inductive scalar :=
| PyNum (q : Qc)
| PyTensor (l : loss).

Definition as_loss (s : scalar) : loss :=
  match s with
  | PyNum q => number q
  | PyTensor l => l
  end.

(** [a + b], also [a += b] *)
Definition py_add (a b : scalar) : scalar :=
  match a, b with
  | PyNum x, PyNum y => PyNum (x + y)
  | _, _ => PyTensor (add (as_loss a) (as_loss b))
  end.

(** [a * b] *)
Definition py_mul (a b : scalar) : scalar :=
  match a, b with
  | PyNum x, PyNum y => PyNum (x * y)
  | _, _ => PyTensor (mul (as_loss a) (as_loss b))
  end.

(** [a / b] *)
Definition py_div (a b : scalar) : scalar :=
  match a, b with
  | PyNum x, PyNum y => PyNum (x / y)
  | _, _ => PyTensor (div (as_loss a) (as_loss b))
  end.

(** Whether back-propagation from a tensor reaches the parameters of
    network [n]: through every operation, into the network that computed
    it, and never through [detach]. *)
Fixpoint reaches (n : net) (t : tensor) : bool :=
  match t with
  | from_data _ => false
  | interpolate t _ => reaches n t
  | conv_transpose2d t _ _ _ _ => reaches n t
  | cat a b => reaches n a || reaches n b
  | detach _ => false
  | generator_forward inputs => bool_decide (n = Gen) || reaches n inputs
  | discriminator_forward inputs => bool_decide (n = Dis) || reaches n inputs
  | discriminator_feature _ inputs => bool_decide (n = Dis) || reaches n inputs
  end.

Fixpoint loss_reaches (n : net) (l : loss) : bool :=
  match l with
  | adversarial_loss outputs _ _ => reaches n outputs
  | L1_loss a b => reaches n a || reaches n b
  | content_loss a b => reaches n a || reaches n b
  | style_loss a b => reaches n a || reaches n b
  | number _ => false
  | add a b => loss_reaches n a || loss_reaches n b
  | mul a b => loss_reaches n a || loss_reaches n b
  | div a b => loss_reaches n a || loss_reaches n b
  end.

(** The state of an Adam optimizer that the controllers set or change. *)
Record optimizer := {
  lr : Qc;
  betas : Qc * Qc;
  steps : nat
}.

(** What the controllers take from [components.py], [loss.py] and torch:
    the networks as functions of their parameters, the loss modules, and
    the update Adam makes of a parameter set from its accumulated
    gradient (the backward passes that reached it). *)
Class Torch := {
  Generator : controller -> network -> ndarray -> ndarray;
  Discriminator : nat -> bool -> network -> ndarray -> ndarray;
  Discriminator_feature : nat -> bool -> network -> nat -> ndarray -> ndarray;
  Discriminator_layers : nat;
  AdversarialLoss : string -> ndarray -> bool -> bool -> Qc;
  L1Loss : ndarray -> ndarray -> Qc;
  ContentLoss : ndarray -> ndarray -> Qc;
  StyleLoss : ndarray -> ndarray -> Qc;
  Adam_step : optimizer -> network -> list loss -> network;
  cuda_is_available : bool
}.

(** ** The controllers' state *)

(** The options of the configuration that [models.py] reads. *)
Record config := {
  PATH : string;
  MODE : Z;
  SCALE : nat;
  GPU : list Z;
  GAN_LOSS : string;
  LR : Qc;
  BETA1 : Qc;
  BETA2 : Qc;
  ADV_LOSS_WEIGHT1 : Qc;
  ADV_LOSS_WEIGHT2 : Qc;
  FM_LOSS_WEIGHT : Qc;
  L1_LOSS_WEIGHT : Qc;
  CONTENT_LOSS_WEIGHT : Qc;
  STYLE_LOSS_WEIGHT : Qc
}.

(** A controller object. [gen_grad] and [dis_grad] are the [.grad] of
    the generator's and of the discriminator's parameters: the losses
    back-propagated into them since they were last cleared, [[]] for a
    zero gradient. *)
Record model := {
  kind : controller;
  name : string;
  cfg : config;
  iteration : Z;
  gen_weights_path : string;
  dis_weights_path : string;
  generator : network;
  discriminator : network;
  scale_kernel : ndarray;
  gen_optimizer : optimizer;
  dis_optimizer : optimizer;
  gen_grad : list loss;
  dis_grad : list loss
}.

(** A checkpoint file: the dictionary [torch.save] pickled, with the
    keys this repository uses; [None] is a key that is not there. *)
Record checkpoint := {
  ck_iteration : option Z;
  ck_generator : option network;
  ck_discriminator : option network
}.

(** What a method does that can be seen from outside, in order. *)
Inductive event :=
| ev_iteration (n : Z)
| ev_zero_grad (n : net)
| ev_forward (n : net) (inputs : tensor)
| ev_loss (l : loss)
| ev_backward (l : loss)
| ev_step (n : net)
| ev_torch_load (path : string)
| ev_torch_save (path : string).

(** The object, the checkpoint directory and the events so far. *)
Record world := {
  self : model;
  files : gmap string checkpoint;
  trace : list event
}.

(** A method: it returns a value and a new world, or raises. *)
Definition M (A : Type) : Type := world -> result (A * world).

Definition ret {A : Type} (a : A) : M A := fun w => Ok (a, w).

Definition bind {A B : Type} (m : M A) (k : A -> M B) : M B :=
  fun w =>
    match m w with
    | Ok (a, w') => k a w'
    | Raise e => Raise e
    end.

Definition raise {A : Type} (e : exn) : M A := fun _ => Raise e.

Notation "'let!' x ':=' m 'in' k" := (bind m (fun x => k))
  (at level 10, x name, m at level 100, k at level 200).
Notation "'let!' ( x , y ) ':=' m 'in' k" := (bind m (fun p => let (x, y) := p in k))
  (at level 10, x name, y name, m at level 100, k at level 200).
Notation "m ';;' k" := (bind m (fun _ => k))
  (at level 100, k at level 200, right associativity).

Definition get_self : M model := fun w => Ok (self w, w).

Definition put_self (s : model) : M unit :=
  fun w => Ok (tt, {| self := s; files := files w; trace := trace w |}).

Definition emit (e : event) : M unit :=
  fun w => Ok (tt, {| self := self w; files := files w; trace := trace w ++ [e] |}).

Definition get_files : M (gmap string checkpoint) := fun w => Ok (files w, w).

Definition put_file (path : string) (c : checkpoint) : M unit :=
  fun w => Ok (tt, {| self := self w; files := <[path := c]> (files w); trace := trace w |}).

Definition lift {A : Type} (r : result A) : M A :=
  fun w => match r with Ok a => Ok (a, w) | Raise e => Raise e end.

(** Assignments to the attributes of the object. *)
Definition set_iteration (v : Z) (s : model) : model :=
  {| kind := kind s; name := name s; cfg := cfg s; iteration := v;
     gen_weights_path := gen_weights_path s; dis_weights_path := dis_weights_path s;
     generator := generator s; discriminator := discriminator s;
     scale_kernel := scale_kernel s;
     gen_optimizer := gen_optimizer s; dis_optimizer := dis_optimizer s;
     gen_grad := gen_grad s; dis_grad := dis_grad s |}.

Definition set_network (n : net) (v : network) (s : model) : model :=
  {| kind := kind s; name := name s; cfg := cfg s; iteration := iteration s;
     gen_weights_path := gen_weights_path s; dis_weights_path := dis_weights_path s;
     generator := match n with Gen => v | Dis => generator s end;
     discriminator := match n with Gen => discriminator s | Dis => v end;
     scale_kernel := scale_kernel s;
     gen_optimizer := gen_optimizer s; dis_optimizer := dis_optimizer s;
     gen_grad := gen_grad s; dis_grad := dis_grad s |}.

Definition set_scale_kernel (v : ndarray) (s : model) : model :=
  {| kind := kind s; name := name s; cfg := cfg s; iteration := iteration s;
     gen_weights_path := gen_weights_path s; dis_weights_path := dis_weights_path s;
     generator := generator s; discriminator := discriminator s;
     scale_kernel := v;
     gen_optimizer := gen_optimizer s; dis_optimizer := dis_optimizer s;
     gen_grad := gen_grad s; dis_grad := dis_grad s |}.

Definition set_optimizer (n : net) (v : optimizer) (s : model) : model :=
  {| kind := kind s; name := name s; cfg := cfg s; iteration := iteration s;
     gen_weights_path := gen_weights_path s; dis_weights_path := dis_weights_path s;
     generator := generator s; discriminator := discriminator s;
     scale_kernel := scale_kernel s;
     gen_optimizer := match n with Gen => v | Dis => gen_optimizer s end;
     dis_optimizer := match n with Gen => dis_optimizer s | Dis => v end;
     gen_grad := gen_grad s; dis_grad := dis_grad s |}.

Definition set_grad (n : net) (v : list loss) (s : model) : model :=
  {| kind := kind s; name := name s; cfg := cfg s; iteration := iteration s;
     gen_weights_path := gen_weights_path s; dis_weights_path := dis_weights_path s;
     generator := generator s; discriminator := discriminator s;
     scale_kernel := scale_kernel s;
     gen_optimizer := gen_optimizer s; dis_optimizer := dis_optimizer s;
     gen_grad := match n with Gen => v | Dis => gen_grad s end;
     dis_grad := match n with Gen => dis_grad s | Dis => v end |}.

Definition network_of (n : net) (s : model) : network :=
  match n with Gen => generator s | Dis => discriminator s end.

Definition optimizer_of (n : net) (s : model) : optimizer :=
  match n with Gen => gen_optimizer s | Dis => dis_optimizer s end.

Definition grad_of (n : net) (s : model) : list loss :=
  match n with Gen => gen_grad s | Dis => dis_grad s end.

(** ** The values of tensors *)

(** The arguments the controllers construct their discriminator with. *)
Definition in_channels (k : controller) : nat :=
  match k with
  | SR => 3
  | Edge | Gradient => 4
  end.

Definition use_sigmoid (c : config) : bool :=
  negb (String.eqb (GAN_LOSS c) "hinge").

Section Values.
Context `{Torch}.

(** The array a tensor holds, at the parameters of the object. *)
Fixpoint value (s : model) (t : tensor) : ndarray :=
  match t with
  | from_data x => x
  | interpolate t scale_factor => F_interpolate (value s t) scale_factor
  | conv_transpose2d t weight padding stride groups =>
      F_conv_transpose2d (value s t) weight padding stride groups
  | cat a b => torch_cat (value s a) (value s b)
  | detach t => value s t
  | generator_forward inputs => Generator (kind s) (generator s) (value s inputs)
  | discriminator_forward inputs =>
      Discriminator (in_channels (kind s)) (use_sigmoid (cfg s))
        (discriminator s) (value s inputs)
  | discriminator_feature i inputs =>
      Discriminator_feature (in_channels (kind s)) (use_sigmoid (cfg s))
        (discriminator s) i (value s inputs)
  end.

(** The number a scalar tensor holds. *)
Fixpoint loss_value (s : model) (l : loss) : Qc :=
  match l with
  | adversarial_loss outputs is_real is_disc =>
      AdversarialLoss (GAN_LOSS (cfg s)) (value s outputs) is_real is_disc
  | L1_loss a b => L1Loss (value s a) (value s b)
  | content_loss a b => ContentLoss (value s a) (value s b)
  | style_loss a b => StyleLoss (value s a) (value s b)
  | number q => q
  | add a b => (loss_value s a + loss_value s b)%Qc
  | mul a b => (loss_value s a * loss_value s b)%Qc
  | div a b => (loss_value s a / loss_value s b)%Qc
  end.

(** ** The operations of torch on the object *)

(** [x.item()]: a tensor has it, a Python number does not. *)
Definition item (x : scalar) : M Qc :=
  match x with
  | PyTensor l => let! s := get_self in ret (loss_value s l)
  | PyNum _ => raise (AttributeError "item")
  end.

(** [optimizer.zero_grad()] *)
Definition zero_grad (n : net) : M unit :=
  emit (ev_zero_grad n) ;;
  let! s := get_self in
  put_self (set_grad n [] s).

(** The [.grad] of the parameters after a backward pass from [l]: the
    gradient of [l] is added where its graph reaches. *)
Definition accumulate (l : loss) (s : model) : model :=
  let s := if loss_reaches Gen l then set_grad Gen (gen_grad s ++ [l]) s else s in
  if loss_reaches Dis l then set_grad Dis (dis_grad s ++ [l]) s else s.

(** [x.backward()]: a tensor has it, a Python number does not. *)
Definition loss_backward (x : scalar) : M unit :=
  match x with
  | PyTensor l =>
      emit (ev_backward l) ;;
      let! s := get_self in
      put_self (accumulate l s)
  | PyNum _ => raise (AttributeError "backward")
  end.

(** The object after Adam has updated the parameters of [n] from their
    gradient. *)
Definition apply_step (n : net) (s : model) : model :=
  let o := optimizer_of n s in
  let s := set_network n (Adam_step o (network_of n s) (grad_of n s)) s in
  set_optimizer n {| lr := lr o; betas := betas o; steps := S (steps o) |} s.

(** [optimizer.step()] *)
Definition optimizer_step (n : net) : M unit :=
  emit (ev_step n) ;;
  let! s := get_self in
  put_self (apply_step n s).

(** [self.generator.forward(inputs)] *)
Definition generator_call (inputs : tensor) : M tensor :=
  emit (ev_forward Gen inputs) ;;
  ret (generator_forward inputs).

(** [self.discriminator.forward(inputs)]: the decision and the
    activations of the layers. *)
Definition discriminator_call (inputs : tensor) : M (tensor * list tensor) :=
  emit (ev_forward Dis inputs) ;;
  ret (discriminator_forward inputs,
       map (fun i => discriminator_feature i inputs) (seq 0 Discriminator_layers)).

(** A call of a loss module. *)
Definition loss_call (l : loss) : M scalar :=
  emit (ev_loss l) ;;
  ret (PyTensor l).

(** [l[i]] *)
Definition getitem {A : Type} (l : list A) (i : nat) : M A :=
  match l !! i with
  | Some a => ret a
  | None => raise IndexError
  end.

(** [for i in range: acc = body(i, acc)] *)
Fixpoint for_range {A : Type} (range : list nat) (body : nat -> A -> M A)
    (acc : A) : M A :=
  match range with
  | [] => ret acc
  | i :: range' => let! acc' := body i acc in for_range range' body acc'
  end.

End Values.

(** ** models.py: BaseModel *)

(** [b.startswith("/")] *)
Definition is_absolute (b : string) : bool :=
  match b with
  | String c _ => Ascii.eqb c "/"%char
  | EmptyString => false
  end.

(** [os.path.join(a, b)] *)
Definition os_path_join (a b : string) : string :=
  if is_absolute b then b
  else if String.eqb a "" then b
  else if String.eqb (String.substring (String.length a - 1) 1 a) "/" then a ++ b
  else a ++ "/" ++ b.

(** [module.load_state_dict(sd)], strict: the names and the sizes must
    be those of the module. *)
Definition load_state_dict (module sd : network) : result network :=
  if bool_decide (length <$> sd = length <$> module) then Ok sd
  else Raise (RuntimeError "Error(s) in loading state_dict").

(** [nn.DataParallel(module, device_ids)]: the parameters are those of
    the wrapped module, under the prefix of the wrapper. *)
Definition DataParallel (module : network) (device_ids : list Z) : network :=
  kmap (String.append "module.") module.

(** [optim.Adam(params, lr, betas)] *)
Definition optim_Adam (lr : Qc) (betas : Qc * Qc) : optimizer :=
  {| lr := lr; betas := betas; steps := 0 |}.

Module BaseModel.

(** [__init__]: the attributes the subclasses set later are empty. *)
Definition __init__ (k : controller) (name : string) (config : config) : model :=
  {| kind := k; name := name; cfg := config; iteration := 0;
     gen_weights_path := os_path_join (PATH config) (name ++ "_gen.pth");
     dis_weights_path := os_path_join (PATH config) (name ++ "_dis.pth");
     generator := ∅; discriminator := ∅; scale_kernel := [];
     gen_optimizer := optim_Adam (Q2Qc 0) (Q2Qc 0, Q2Qc 0);
     dis_optimizer := optim_Adam (Q2Qc 0) (Q2Qc 0, Q2Qc 0);
     gen_grad := []; dis_grad := [] |}.

(** [torch.load(path)], with or without [map_location]: the
    dictionary in the file. *)
Definition torch_load (path : string) (map_location : bool) : M checkpoint :=
  emit (ev_torch_load path) ;;
  let! fs := get_files in
  match fs !! path with
  | Some c => ret c
  | None => raise (RuntimeError "No such file")
  end.

(** [data[key]] for the keys of a checkpoint. *)
Definition data_getitem {A : Type} (field : option A) (key : string) : M A :=
  match field with
  | Some a => ret a
  | None => raise (KeyError key)
  end.

Definition load `{Torch} : M unit :=
  let! s := get_self in
  let! fs := get_files in
  (if bool_decide (is_Some (fs !! gen_weights_path s)) then
     let! data :=
       (if cuda_is_available then torch_load (gen_weights_path s) false
        else torch_load (gen_weights_path s) true) in
     let! sd := data_getitem (ck_generator data) "generator" in
     let! g := lift (load_state_dict (generator s) sd) in
     let! s := get_self in
     put_self (set_network Gen g s) ;;
     let! it := data_getitem (ck_iteration data) "iteration" in
     let! s := get_self in
     put_self (set_iteration it s)
   else ret tt) ;;
  let! s := get_self in
  let! fs := get_files in
  if (MODE (cfg s) =? 1) && bool_decide (is_Some (fs !! dis_weights_path s)) then
    let! data :=
      (if cuda_is_available then torch_load (dis_weights_path s) false
       else torch_load (dis_weights_path s) true) in
    let! sd := data_getitem (ck_discriminator data) "discriminator" in
    let! d := lift (load_state_dict (discriminator s) sd) in
    let! s := get_self in
    put_self (set_network Dis d s)
  else ret tt.

(** [torch.save(obj, path)] *)
Definition torch_save (obj : checkpoint) (path : string) : M unit :=
  emit (ev_torch_save path) ;;
  put_file path obj.

Definition save : M unit :=
  let! s := get_self in
  torch_save {| ck_iteration := Some (iteration s);
                ck_generator := Some (generator s);
                ck_discriminator := None |} (gen_weights_path s) ;;
  let! s := get_self in
  torch_save {| ck_iteration := None;
                ck_generator := None;
                ck_discriminator := Some (discriminator s) |} (dis_weights_path s).

End BaseModel.

(** [self.iteration += 1] *)
Definition increment_iteration : M unit :=
  let! s := get_self in
  emit (ev_iteration (iteration s + 1)) ;;
  put_self (set_iteration (iteration s + 1) s).

(** The part of [__init__] the three classes share after the networks
    are made: replication over the devices, and one Adam optimizer for
    each network. *)
Definition init_networks (config : config) (generator discriminator : network)
    (s : model) : model :=
  let generator :=
    if (1 <? length (GPU config))%nat then DataParallel generator (GPU config)
    else generator in
  let discriminator :=
    if (1 <? length (GPU config))%nat then DataParallel discriminator (GPU config)
    else discriminator in
  let s := set_network Gen generator s in
  let s := set_network Dis discriminator s in
  let s := set_optimizer Gen (optim_Adam (LR config) (BETA1 config, BETA2 config)) s in
  set_optimizer Dis (optim_Adam (LR config) (BETA1 config, BETA2 config)) s.

(** ** models.py: EdgeModel *)

Module EdgeModel.
Section Methods.
Context `{Torch}.

(** [__init__]; [new_generator] is [EdgeGenerator()] and
    [new_discriminator] is [Discriminator(in_channels = 4, ...)]. *)
Definition __init__ (config : config) (new_generator new_discriminator : network)
    : result model :=
  let s := BaseModel.__init__ Edge "EdgeModel" config in
  Ok (init_networks config new_generator new_discriminator s).

Definition forward (lr_images lr_edges : tensor) : M tensor :=
  let! s := get_self in
  let hr_images := interpolate lr_images (SCALE (cfg s)) in
  let hr_edges := interpolate lr_edges (SCALE (cfg s)) in
  let inputs := cat hr_images hr_edges in
  let! outputs := generator_call inputs in
  ret outputs.

Definition backward (gen_loss dis_loss : scalar) : M unit :=
  loss_backward dis_loss ;;
  optimizer_step Dis ;;
  loss_backward gen_loss ;;
  optimizer_step Gen.

Definition process (lr_images hr_images lr_edges hr_edges : tensor)
    : M (tensor * scalar * scalar * list (string * Qc)) :=
  increment_iteration ;;
  zero_grad Gen ;;
  zero_grad Dis ;;
  let! outputs := forward lr_images lr_edges in
  let gen_loss := PyNum (Q2Qc 0) in
  let dis_loss := PyNum (Q2Qc 0) in
  (* discriminator loss *)
  let dis_input_real := cat hr_images hr_edges in
  let dis_input_fake := cat hr_images (detach outputs) in
  let! (dis_real, dis_real_feat) := discriminator_call dis_input_real in
  let! (dis_fake, dis_fake_feat) := discriminator_call dis_input_fake in
  let! dis_real_loss := loss_call (adversarial_loss dis_real true true) in
  let! dis_fake_loss := loss_call (adversarial_loss dis_fake false true) in
  let dis_loss :=
    py_add dis_loss (py_div (py_add dis_real_loss dis_fake_loss) (PyNum (Q2Qc 2))) in
  (* generator adversarial loss *)
  let gen_input_fake := cat hr_images outputs in
  let! (gen_fake, gen_fake_feat) := discriminator_call gen_input_fake in
  let! gen_adv := loss_call (adversarial_loss gen_fake true false) in
  let! s := get_self in
  let gen_gan_loss := py_mul gen_adv (PyNum (ADV_LOSS_WEIGHT1 (cfg s))) in
  let gen_loss := py_add gen_loss gen_gan_loss in
  (* generator feature matching loss *)
  let gen_fm_loss := PyNum (Q2Qc 0) in
  let! gen_fm_loss :=
    for_range (seq 0 (length dis_real_feat))
      (fun i gen_fm_loss =>
         let! fake_i := getitem gen_fake_feat i in
         let! real_i := getitem dis_real_feat i in
         let! l := loss_call (L1_loss fake_i (detach real_i)) in
         ret (py_add gen_fm_loss l))
      gen_fm_loss in
  let gen_fm_loss := py_mul gen_fm_loss (PyNum (FM_LOSS_WEIGHT (cfg s))) in
  let gen_loss := py_add gen_loss gen_fm_loss in
  (* create logs *)
  let! l_dis := item dis_loss in
  let! l_gen := item gen_gan_loss in
  let! l_fm := item gen_fm_loss in
  let logs := [("l_dis", l_dis); ("l_gen", l_gen); ("l_fm", l_fm)] in
  ret (outputs, gen_loss, dis_loss, logs).

End Methods.
End EdgeModel.

(** ** models.py: SRModel *)

Module SRModel.
Section Methods.
Context `{Torch}.

(** [__init__]; [new_generator] is [SRGenerator()] and
    [new_discriminator] is [Discriminator(in_channels = 3, ...)]. *)
Definition __init__ (config : config) (new_generator new_discriminator : network)
    : result model :=
  let s := BaseModel.__init__ SR "SRModel" config in
  let kernel := np_zeros (SCALE config) (SCALE config) in
  match np_setitem kernel 0 0 (Q2Qc 1) with
  | Raise e => Raise e
  | Ok kernel =>
      let kernel_weight := np_tile kernel 3 in
      let s := set_scale_kernel kernel_weight s in
      Ok (init_networks config new_generator new_discriminator s)
  end.

Definition forward (lr_images hr_edges : tensor) : M tensor :=
  let! s := get_self in
  let hr_images :=
    conv_transpose2d lr_images (scale_kernel s) 0 (SCALE (cfg s)) 3 in
  let inputs := cat hr_images hr_edges in
  let! outputs := generator_call inputs in
  ret outputs.

Definition backward (gen_loss dis_loss : scalar) : M unit :=
  loss_backward dis_loss ;;
  optimizer_step Dis ;;
  loss_backward gen_loss ;;
  optimizer_step Gen.

Definition process (lr_images hr_images lr_edges hr_edges : tensor)
    : M (tensor * scalar * scalar * list (string * Qc)) :=
  increment_iteration ;;
  zero_grad Gen ;;
  zero_grad Dis ;;
  let! outputs := forward lr_images hr_edges in
  let gen_loss := PyNum (Q2Qc 0) in
  let dis_loss := PyNum (Q2Qc 0) in
  (* discriminator loss *)
  let dis_input_real := hr_images in
  let dis_input_fake := detach outputs in
  let! (dis_real, dis_real_feat) := discriminator_call dis_input_real in
  let! (dis_fake, dis_fake_feat) := discriminator_call dis_input_fake in
  let! dis_real_loss := loss_call (adversarial_loss dis_real true true) in
  let! dis_fake_loss := loss_call (adversarial_loss dis_fake false true) in
  let dis_loss :=
    py_add dis_loss (py_div (py_add dis_real_loss dis_fake_loss) (PyNum (Q2Qc 2))) in
  (* generator adversarial loss *)
  let gen_input_fake := outputs in
  let! (gen_fake, gen_fake_feat) := discriminator_call gen_input_fake in
  let! gen_adv := loss_call (adversarial_loss gen_fake true false) in
  let! s := get_self in
  let gen_gan_loss := py_mul gen_adv (PyNum (ADV_LOSS_WEIGHT2 (cfg s))) in
  let gen_loss := py_add gen_loss gen_gan_loss in
  (* generator L1 loss *)
  let! gen_l1 := loss_call (L1_loss outputs hr_images) in
  let gen_l1_loss := py_mul gen_l1 (PyNum (L1_LOSS_WEIGHT (cfg s))) in
  let gen_loss := py_add gen_loss gen_l1_loss in
  (* generator content loss *)
  let! gen_content_loss := loss_call (content_loss outputs hr_images) in
  let gen_content_loss := py_mul gen_content_loss (PyNum (CONTENT_LOSS_WEIGHT (cfg s))) in
  let gen_loss := py_add gen_loss gen_content_loss in
  (* generator style loss *)
  let! gen_style_loss := loss_call (style_loss outputs hr_images) in
  let gen_style_loss := py_mul gen_style_loss (PyNum (STYLE_LOSS_WEIGHT (cfg s))) in
  let gen_loss := py_add gen_loss gen_style_loss in
  (* create logs *)
  let! l_dis := item dis_loss in
  let! l_gen := item gen_gan_loss in
  let! l_l1 := item gen_l1_loss in
  let! l_content := item gen_content_loss in
  let! l_style := item gen_style_loss in
  let logs := [("l_dis", l_dis); ("l_gen", l_gen); ("l_l1", l_l1);
               ("l_content", l_content); ("l_style", l_style)] in
  ret (outputs, gen_loss, dis_loss, logs).

End Methods.
End SRModel.

(** ** models.py: GradientModel *)

Module GradientModel.
Section Methods.
Context `{Torch}.

(** [__init__]; [new_generator] is [GradientGenerator()] and
    [new_discriminator] is [Discriminator(in_channels = 4, ...)]. *)
Definition __init__ (config : config) (new_generator new_discriminator : network)
    : result model :=
  let s := BaseModel.__init__ Gradient "GradientModel" config in
  Ok (init_networks config new_generator new_discriminator s).

Definition forward (lr_images lr_gradients : tensor) : M tensor :=
  let! s := get_self in
  let hr_images := interpolate lr_images (SCALE (cfg s)) in
  let hr_gradients := interpolate lr_gradients (SCALE (cfg s)) in
  let inputs := cat hr_images hr_gradients in
  let! outputs := generator_call inputs in
  ret outputs.

Definition backward (gen_loss dis_loss : scalar) : M unit :=
  loss_backward dis_loss ;;
  optimizer_step Dis ;;
  loss_backward gen_loss ;;
  optimizer_step Gen.

Definition process (lr_images hr_images lr_gradients hr_gradients : tensor)
    : M (tensor * scalar * scalar * list (string * Qc)) :=
  increment_iteration ;;
  zero_grad Gen ;;
  zero_grad Dis ;;
  let! outputs := forward lr_images lr_gradients in
  let gen_loss := PyNum (Q2Qc 0) in
  let dis_loss := PyNum (Q2Qc 0) in
  (* discriminator loss *)
  let dis_input_real := cat hr_images hr_gradients in
  let dis_input_fake := cat hr_images (detach outputs) in
  let! (dis_real, dis_real_feat) := discriminator_call dis_input_real in
  let! (dis_fake, dis_fake_feat) := discriminator_call dis_input_fake in
  let! dis_real_loss := loss_call (adversarial_loss dis_real true true) in
  let! dis_fake_loss := loss_call (adversarial_loss dis_fake false true) in
  let dis_loss :=
    py_add dis_loss (py_div (py_add dis_real_loss dis_fake_loss) (PyNum (Q2Qc 2))) in
  (* generator adversarial loss *)
  let gen_input_fake := cat hr_images outputs in
  let! (gen_fake, gen_fake_feat) := discriminator_call gen_input_fake in
  let! gen_adv := loss_call (adversarial_loss gen_fake true false) in
  let! s := get_self in
  let gen_gan_loss := py_mul gen_adv (PyNum (ADV_LOSS_WEIGHT1 (cfg s))) in
  let gen_loss := py_add gen_loss gen_gan_loss in
  (* generator feature matching loss *)
  let gen_fm_loss := PyNum (Q2Qc 0) in
  let! gen_fm_loss :=
    for_range (seq 0 (length dis_real_feat))
      (fun i gen_fm_loss =>
         let! fake_i := getitem gen_fake_feat i in
         let! real_i := getitem dis_real_feat i in
         let! l := loss_call (L1_loss fake_i (detach real_i)) in
         ret (py_add gen_fm_loss l))
      gen_fm_loss in
  let gen_fm_loss := py_mul gen_fm_loss (PyNum (FM_LOSS_WEIGHT (cfg s))) in
  let gen_loss := py_add gen_loss gen_fm_loss in
  (* create logs *)
  let! l_dis := item dis_loss in
  let! l_gen := item gen_gan_loss in
  let! l_fm := item gen_fm_loss in
  let logs := [("l_dis", l_dis); ("l_gen", l_gen); ("l_fm", l_fm)] in
  ret (outputs, gen_loss, dis_loss, logs).

End Methods.
End GradientModel.

(** ** The controllers as one family *)

(** Construction, by class. *)
Definition init `{Torch} (k : controller) (config : config)
    (new_generator new_discriminator : network) : result model :=
  match k with
  | Edge => EdgeModel.__init__ config new_generator new_discriminator
  | SR => SRModel.__init__ config new_generator new_discriminator
  | Gradient => GradientModel.__init__ config new_generator new_discriminator
  end.

(** [process], by class. *)
Definition process `{Torch} (k : controller) (lr_images hr_images lr_guide hr_guide : tensor)
    : M (tensor * scalar * scalar * list (string * Qc)) :=
  match k with
  | Edge => EdgeModel.process lr_images hr_images lr_guide hr_guide
  | SR => SRModel.process lr_images hr_images lr_guide hr_guide
  | Gradient => GradientModel.process lr_images hr_images lr_guide hr_guide
  end.

(** [backward], by class. *)
Definition backward `{Torch} (k : controller) (gen_loss dis_loss : scalar) : M unit :=
  match k with
  | Edge => EdgeModel.backward gen_loss dis_loss
  | SR => SRModel.backward gen_loss dis_loss
  | Gradient => GradientModel.backward gen_loss dis_loss
  end.

(** [forward], by class. *)
Definition forward `{Torch} (k : controller) (lr_images guide : tensor) : M tensor :=
  match k with
  | Edge => EdgeModel.forward lr_images guide
  | SR => SRModel.forward lr_images guide
  | Gradient => GradientModel.forward lr_images guide
  end.

(** The paths of an object are those its name and configuration give. *)
Definition paths_derived (s : model) : Prop :=
  gen_weights_path s = os_path_join (PATH (cfg s)) (name s ++ "_gen.pth")
  /\ dis_weights_path s = os_path_join (PATH (cfg s)) (name s ++ "_dis.pth").

(** A world with the object [s], the files [fs] and nothing done yet. *)
Definition start (s : model) (fs : gmap string checkpoint) : world :=
  {| self := s; files := fs; trace := [] |}.

(** ** Notions the properties are stated with *)

Section Notions.
Context `{Torch}.

(** The world after some more events. *)
Definition logged (w : world) (evs : list event) : world :=
  {| self := self w; files := files w; trace := trace w ++ evs |}.

(** The object after the first three statements of [process]. *)
Definition stepped (s : model) : model :=
  set_grad Dis [] (set_grad Gen [] (set_iteration (iteration s + 1) s)).

(** The i-th term of the feature-matching loss. *)
Definition fm_term (fake real : tensor) (i : nat) : loss :=
  L1_loss (discriminator_feature i fake) (detach (discriminator_feature i real)).

(** What the generator is given. *)
Definition generator_input (k : controller) (s : model)
    (lr_images lr_guide hr_guide : tensor) : tensor :=
  match k with
  | SR => cat (conv_transpose2d lr_images (scale_kernel s) 0 (SCALE (cfg s)) 3) hr_guide
  | Edge | Gradient =>
      cat (interpolate lr_images (SCALE (cfg s))) (interpolate lr_guide (SCALE (cfg s)))
  end.

(** The real input of the discriminator. *)
Definition real_input (k : controller) (hr_images hr_guide : tensor) : tensor :=
  match k with
  | SR => hr_images
  | Edge | Gradient => cat hr_images hr_guide
  end.

(** The generated input of the discriminator, made of [x]. *)
Definition fake_input (k : controller) (hr_images x : tensor) : tensor :=
  match k with
  | SR => x
  | Edge | Gradient => cat hr_images x
  end.

Definition dis_loss_of (k : controller) (hr_images hr_guide outputs : tensor) : loss :=
  add (number (Q2Qc 0))
    (div (add (adversarial_loss (discriminator_forward (real_input k hr_images hr_guide))
                 true true)
              (adversarial_loss
                 (discriminator_forward (fake_input k hr_images (detach outputs)))
                 false true))
         (number (Q2Qc 2))).

(** The loss modules the generator loss is made of, each with the
    weight it is multiplied by, in the order of the source. *)
Definition gen_raw_terms (k : controller) (s : model)
    (hr_images hr_guide outputs : tensor) : list (loss * Qc) :=
  let adv_gen :=
    adversarial_loss (discriminator_forward (fake_input k hr_images outputs)) true false in
  match k with
  | SR =>
      [(adv_gen, ADV_LOSS_WEIGHT2 (cfg s));
       (L1_loss outputs hr_images, L1_LOSS_WEIGHT (cfg s));
       (content_loss outputs hr_images, CONTENT_LOSS_WEIGHT (cfg s));
       (style_loss outputs hr_images, STYLE_LOSS_WEIGHT (cfg s))]
  | Edge | Gradient =>
      [(adv_gen, ADV_LOSS_WEIGHT1 (cfg s));
       (fold_left add
          (map (fm_term (fake_input k hr_images outputs)
                  (real_input k hr_images hr_guide))
             (seq 0 Discriminator_layers))
          (number (Q2Qc 0)),
        FM_LOSS_WEIGHT (cfg s))]
  end.

Definition weighted (t : loss * Qc) : loss := mul (fst t) (number (snd t)).

Definition gen_loss_of (k : controller) (s : model)
    (hr_images hr_guide outputs : tensor) : loss :=
  fold_left add (map weighted (gen_raw_terms k s hr_images hr_guide outputs))
    (number (Q2Qc 0)).

Definition log_names (k : controller) : list string :=
  match k with
  | SR => ["l_dis"; "l_gen"; "l_l1"; "l_content"; "l_style"]
  | Edge | Gradient => ["l_dis"; "l_gen"; "l_fm"]
  end.

(** The loss modules called after the adversarial ones. *)
Definition extra_losses (k : controller) (hr_images hr_guide outputs : tensor)
    : list loss :=
  match k with
  | SR => [L1_loss outputs hr_images; content_loss outputs hr_images;
           style_loss outputs hr_images]
  | Edge | Gradient =>
      map (fm_term (fake_input k hr_images outputs) (real_input k hr_images hr_guide))
        (seq 0 Discriminator_layers)
  end.

(** The events of one [process], in order. *)
Definition process_events (k : controller) (s : model)
    (lr_images hr_images lr_guide hr_guide : tensor) : list event :=
  let inputs := generator_input k s lr_images lr_guide hr_guide in
  let outputs := generator_forward inputs in
  [ev_iteration (iteration s + 1); ev_zero_grad Gen; ev_zero_grad Dis;
   ev_forward Gen inputs;
   ev_forward Dis (real_input k hr_images hr_guide);
   ev_forward Dis (fake_input k hr_images (detach outputs));
   ev_loss (adversarial_loss (discriminator_forward (real_input k hr_images hr_guide))
              true true);
   ev_loss (adversarial_loss
              (discriminator_forward (fake_input k hr_images (detach outputs)))
              false true);
   ev_forward Dis (fake_input k hr_images outputs);
   ev_loss (adversarial_loss (discriminator_forward (fake_input k hr_images outputs))
              true false)]
  ++ map ev_loss (extra_losses k hr_images hr_guide outputs).

(** The discriminator of the class has what [process] needs of it. *)
Definition runnable (k : controller) : Prop :=
  k = SR \/ (0 < Discriminator_layers)%nat.

(** The value of the adversarial loss module on the decision of the
    discriminator about [x]. *)
Definition adversarial_value (s : model) (x : tensor) (is_real is_disc : bool) : Qc :=
  AdversarialLoss (GAN_LOSS (cfg s))
    (Discriminator (in_channels (kind s)) (use_sigmoid (cfg s)) (discriminator s)
       (value s x)) is_real is_disc.

(** The sum of the L1 distances between the activations of the
    discriminator on [fake] and on [real], layer by layer. *)
Definition feature_matching_value (s : model) (fake real : tensor) : Qc :=
  sumQc (map (fun i =>
                L1Loss
                  (Discriminator_feature (in_channels (kind s)) (use_sigmoid (cfg s))
                     (discriminator s) i (value s fake))
                  (Discriminator_feature (in_channels (kind s)) (use_sigmoid (cfg s))
                     (discriminator s) i (value s real)))
           (seq 0 Discriminator_layers)).

(** The generator loss as the source composes it: each raw value
    times its weight, added up. *)
Definition weighted_sum (k : controller) (s : model)
    (hr_images hr_guide outputs : tensor) : Qc :=
  match k with
  | SR =>
      (adversarial_value s outputs true false * ADV_LOSS_WEIGHT2 (cfg s)
       + L1Loss (value s outputs) (value s hr_images) * L1_LOSS_WEIGHT (cfg s)
       + ContentLoss (value s outputs) (value s hr_images) * CONTENT_LOSS_WEIGHT (cfg s)
       + StyleLoss (value s outputs) (value s hr_images) * STYLE_LOSS_WEIGHT (cfg s))%Qc
  | Edge | Gradient =>
      (adversarial_value s (cat hr_images outputs) true false * ADV_LOSS_WEIGHT1 (cfg s)
       + feature_matching_value s (cat hr_images outputs) (cat hr_images hr_guide)
         * FM_LOSS_WEIGHT (cfg s))%Qc
  end.

(** The entries of the log: the averaged discriminator loss, then the
    weighted terms of the generator loss. *)
Definition log_entries (k : controller) (s : model)
    (hr_images hr_guide outputs : tensor) : list (string * Qc) :=
  let l_dis :=
    ((adversarial_value s (real_input k hr_images hr_guide) true true
      + adversarial_value s (fake_input k hr_images (detach outputs)) false true)
     / Q2Qc 2)%Qc in
  match k with
  | SR =>
      [("l_dis", l_dis);
       ("l_gen", (adversarial_value s outputs true false * ADV_LOSS_WEIGHT2 (cfg s))%Qc);
       ("l_l1", (L1Loss (value s outputs) (value s hr_images) * L1_LOSS_WEIGHT (cfg s))%Qc);
       ("l_content",
        (ContentLoss (value s outputs) (value s hr_images) * CONTENT_LOSS_WEIGHT (cfg s))%Qc);
       ("l_style",
        (StyleLoss (value s outputs) (value s hr_images) * STYLE_LOSS_WEIGHT (cfg s))%Qc)]
  | Edge | Gradient =>
      [("l_dis", l_dis);
       ("l_gen",
        (adversarial_value s (cat hr_images outputs) true false
         * ADV_LOSS_WEIGHT1 (cfg s))%Qc);
       ("l_fm",
        (feature_matching_value s (cat hr_images outputs) (cat hr_images hr_guide)
         * FM_LOSS_WEIGHT (cfg s))%Qc)]
  end.

End Notions.

(** The operations of a controller other than [load]. *)
Inductive operation :=
| op_save
| op_forward (lr_images guide : tensor)
| op_process (lr_images hr_images lr_guide hr_guide : tensor)
| op_backward (gen_loss dis_loss : scalar).

Definition run_operation `{Torch} (k : controller) (op : operation) : M unit :=
  match op with
  | op_save => BaseModel.save
  | op_forward lr_images guide => forward k lr_images guide ;; ret tt
  | op_process lr_images hr_images lr_guide hr_guide =>
      process k lr_images hr_images lr_guide hr_guide ;; ret tt
  | op_backward gen_loss dis_loss => backward k gen_loss dis_loss
  end.

Definition is_ev_iteration (e : event) : bool :=
  match e with
  | ev_iteration _ => true
  | _ => false
  end.

Definition is_ev_forward (n : net) (e : event) : bool :=
  match e with
  | ev_forward m _ => bool_decide (m = n)
  | _ => false
  end.

Section Upsampling_notions.
Local Open Scope nat_scope.

(** The kernel [SRModel.__init__] builds for scale [s]. *)
Definition unit_kernel (s : nat) : list (list Qc) :=
  <[0 := <[0 := Q2Qc 1]> (repeat (Q2Qc 0) s)]> (np_zeros s s).

(** A pixel of the upsampled channel. *)
Definition upsampled_pixel (s : nat) (ch : list (list Qc)) (y x : nat) : Qc :=
  if (y mod s =? 0) && (x mod s =? 0)
     && (y / s <? length ch) && (x / s <? length (hd [] ch))
  then pixel ch (y / s) (x / s)
  else Q2Qc 0.

(** A channel after the upsampling of [SRModel.forward]. *)
Definition upsample_channel (s : nat) (ch : list (list Qc)) : list (list Qc) :=
  map (fun y => map (fun x => upsampled_pixel s ch y x) (seq 0 (s * length (hd [] ch))))
    (seq 0 (s * length ch)).

(** A channel of [h] rows of [w] pixels, and a batch of [b] images of
    [c] such channels. *)
Definition rect (h w : nat) (ch : list (list Qc)) : Prop :=
  length ch = h /\ Forall (fun row => length row = w) ch.

Definition shaped (b c h w : nat) (x : ndarray) : Prop :=
  length x = b /\ Forall (fun img => length img = c /\ Forall (rect h w) img) x.

End Upsampling_notions.

(** ** A small instance, for the examples *)

Definition qc (n : Z) : Qc := Q2Qc (inject_Z n).

(** Networks that pass their input on, losses with fixed values, and an
    optimizer that moves every parameter by one. *)
Definition example_torch : Torch :=
  {| Generator := fun _ _ x => x;
     Discriminator := fun _ _ _ x => x;
     Discriminator_feature := fun _ _ _ _ x => x;
     Discriminator_layers := 5;
     AdversarialLoss := fun _ _ is_real is_disc =>
       if is_disc then (if is_real then qc 1 else qc 3) else qc 2;
     L1Loss := fun _ _ => Q2Qc (1 # 100);
     ContentLoss := fun _ _ => qc 4;
     StyleLoss := fun _ _ => Q2Qc (1 # 50);
     Adam_step := fun _ p _ => (fun v => map (fun x => (x + qc 1)%Qc) v) <$> p;
     cuda_is_available := false |}.

(** The weights of the table of defaults. *)
Definition example_config : config :=
  {| PATH := "checkpoints"; MODE := 1; SCALE := 2; GPU := [0];
     GAN_LOSS := "hinge"; LR := Q2Qc (1 # 10000);
     BETA1 := qc 0; BETA2 := Q2Qc (9 # 10);
     ADV_LOSS_WEIGHT1 := Q2Qc (1 # 10); ADV_LOSS_WEIGHT2 := qc 1;
     FM_LOSS_WEIGHT := qc 10; L1_LOSS_WEIGHT := qc 1;
     CONTENT_LOSS_WEIGHT := Q2Qc (1 # 10); STYLE_LOSS_WEIGHT := qc 250 |}.

Definition example_generator : network := {[ "conv1.weight" := [qc 1; qc 2] ]}.
Definition example_discriminator : network := {[ "conv1.weight" := [qc 3] ]}.

(** A fresh controller of each class. *)
Definition example_model (k : controller) : model :=
  match init (H := example_torch) k example_config example_generator example_discriminator with
  | Ok s => s
  | Raise _ => BaseModel.__init__ k "" example_config
  end.

(** A controller of class [k] after seven steps of training. *)
Definition example_trained (k : controller) : model :=
  set_iteration 7
    (set_network Gen {[ "conv1.weight" := [qc 5; qc 6] ]}
       (set_network Dis {[ "conv1.weight" := [qc 8] ]} (example_model k))).

(** A 1×3×2×2 image and a 1×1×4×4 guidance map. *)
Definition example_lr_images : ndarray :=
  [[ [[qc 1; qc 2]; [qc 3; qc 4]];
     [[qc 5; qc 6]; [qc 7; qc 8]];
     [[qc 9; qc 10]; [qc 11; qc 12]] ]].

Definition example_hr_edges : ndarray :=
  [[ [[qc 0; qc 1; qc 0; qc 1]; [qc 1; qc 0; qc 1; qc 0];
      [qc 0; qc 1; qc 0; qc 1]; [qc 1; qc 0; qc 1; qc 0]] ]].

(** A world with only a discriminator file, written by a trained
    controller of class [k]. *)
Definition example_discriminator_only (k : controller) : world :=
  start (example_model k)
    {[ dis_weights_path (example_model k) :=
         {| ck_iteration := None; ck_generator := None;
            ck_discriminator := Some (discriminator (example_trained k)) |} ]}.

(** A 1×1×2×2 guidance map at low resolution, and a 1×3×4×4 image. *)
Definition example_lr_edges : ndarray := [[ [[qc 0; qc 1]; [qc 1; qc 0]] ]].

Definition example_hr_images : ndarray :=
  F_interpolate example_lr_images 2.

(** * Properties *)

(** ** Paths *)

Lemma is_absolute_app (n x y : string) :
  is_absolute x = is_absolute y ->
  is_absolute (n ++ x) = is_absolute (n ++ y).
Proof. destruct n as [| c n]; trivial. Qed.

Lemma os_path_join_suffix_inj (a n x y : string) :
  is_absolute x = false -> is_absolute y = false ->
  os_path_join a (n ++ x) = os_path_join a (n ++ y) -> x = y.
Proof.
  intros Hx Hy. unfold os_path_join.
  rewrite (is_absolute_app n x y) by congruence.
  destruct (is_absolute (n ++ y)).
  - apply (inj (String.app n)).
  - destruct (String.eqb a "").
    + apply (inj (String.app n)).
    + destruct (String.eqb _ "/"); intros Heq.
      * apply (inj (String.app a)), (inj (String.app n)) in Heq. exact Heq.
      * apply (inj (String.app a)), (inj (String.app "/")), (inj (String.app n)) in Heq.
        exact Heq.
Qed.

Lemma paths_distinct (s : model) :
  paths_derived s -> gen_weights_path s <> dis_weights_path s.
Proof.
  intros [Hg Hd] Heq. rewrite Hg, Hd in Heq.
  apply os_path_join_suffix_inj in Heq; [discriminate | reflexivity | reflexivity].
Qed.

Lemma init_paths_derived `{Torch} k config g d s :
  init k config g d = Ok s -> paths_derived s /\ cfg s = config.
Proof.
  destruct k; simpl.
  - intros [= <-]. repeat split.
  - unfold SRModel.__init__. destruct (np_setitem _ _ _ _); intros [= <-]. repeat split.
  - intros [= <-]. repeat split.
Qed.

(** ** Checkpoints *)

Ltac run_monad :=
  unfold BaseModel.load, BaseModel.save, BaseModel.torch_load, BaseModel.torch_save,
    BaseModel.data_getitem, bind, ret, raise, lift, emit, get_self, put_self,
    get_files, put_file, start; simpl.

(** What [save] leaves behind: the two files, and the object as it was. *)
Lemma save_spec (w : world) :
  BaseModel.save w =
    Ok (tt, {| self := self w;
               files :=
                 <[dis_weights_path (self w) :=
                     {| ck_iteration := None; ck_generator := None;
                        ck_discriminator := Some (discriminator (self w)) |}]>
                 (<[gen_weights_path (self w) :=
                     {| ck_iteration := Some (iteration (self w));
                        ck_generator := Some (generator (self w));
                        ck_discriminator := None |}]> (files w));
               trace := (trace w ++ [ev_torch_save (gen_weights_path (self w))])
                          ++ [ev_torch_save (dis_weights_path (self w))] |}).
Proof. reflexivity. Qed.

(** [load] when the generator file is there and holds both keys, and
    the discriminator file is not read. *)
Lemma load_generator_only `{Torch} (w : world) (c : checkpoint) (it : Z) (sd : network) :
  files w !! gen_weights_path (self w) = Some c ->
  ck_generator c = Some sd -> ck_iteration c = Some it ->
  length <$> sd = length <$> generator (self w) ->
  (MODE (cfg (self w)) =? 1) && bool_decide (is_Some (files w !! dis_weights_path (self w)))
    = false ->
  BaseModel.load w =
    Ok (tt, {| self := set_iteration it (set_network Gen sd (self w));
               files := files w;
               trace := trace w ++ [ev_torch_load (gen_weights_path (self w))] |}).
Proof.
  intros Hc Hsd Hit Hshape Hdis. run_monad.
  rewrite Hc, bool_decide_true by eauto.
  destruct cuda_is_available; simpl; rewrite Hc; simpl; rewrite Hsd; simpl;
    unfold load_state_dict; rewrite bool_decide_true by done; simpl;
    rewrite Hit; simpl; rewrite Hdis; reflexivity.
Qed.

(** [load] when both files are there, hold their keys, and the mode is
    training. *)
Lemma load_both `{Torch} (w : world) (c c' : checkpoint) (it : Z) (sd sd' : network) :
  files w !! gen_weights_path (self w) = Some c ->
  ck_generator c = Some sd -> ck_iteration c = Some it ->
  length <$> sd = length <$> generator (self w) ->
  MODE (cfg (self w)) = 1 ->
  files w !! dis_weights_path (self w) = Some c' ->
  ck_discriminator c' = Some sd' ->
  length <$> sd' = length <$> discriminator (self w) ->
  BaseModel.load w =
    Ok (tt, {| self := set_network Dis sd' (set_iteration it (set_network Gen sd (self w)));
               files := files w;
               trace := (trace w ++ [ev_torch_load (gen_weights_path (self w))])
                          ++ [ev_torch_load (dis_weights_path (self w))] |}).
Proof.
  intros Hc Hsd Hit Hshape Hmode Hc' Hsd' Hshape'. run_monad.
  rewrite Hc, bool_decide_true by eauto.
  destruct cuda_is_available; simpl; rewrite Hc; simpl; rewrite Hsd; simpl;
    unfold load_state_dict; rewrite bool_decide_true by done; simpl;
    rewrite Hit; simpl; rewrite Hmode, Hc', bool_decide_true by eauto; simpl;
    rewrite Hc'; simpl; rewrite Hsd'; simpl;
    rewrite bool_decide_true by done; reflexivity.
Qed.

(** [load] when the generator file is missing: nothing of the generator
    or of the counter is touched, and the discriminator file decides
    the rest. *)
Lemma load_no_generator `{Torch} (w : world) :
  files w !! gen_weights_path (self w) = None ->
  BaseModel.load w =
    if (MODE (cfg (self w)) =? 1) && bool_decide (is_Some (files w !! dis_weights_path (self w)))
    then
      match files w !! dis_weights_path (self w) with
      | Some c' =>
          match ck_discriminator c' with
          | Some sd' =>
              match load_state_dict (discriminator (self w)) sd' with
              | Ok d =>
                  Ok (tt, {| self := set_network Dis d (self w);
                             files := files w;
                             trace := trace w ++ [ev_torch_load (dis_weights_path (self w))] |})
              | Raise e => Raise e
              end
          | None => Raise (KeyError "discriminator")
          end
      | None => Raise (RuntimeError "No such file")
      end
    else Ok (tt, w).
Proof.
  intros Hc. run_monad.
  rewrite Hc, bool_decide_false by (intros [? ?]; discriminate). simpl.
  destruct ((MODE (cfg (self w)) =? 1) && _); [| now destruct w].
  destruct cuda_is_available; simpl;
    destruct (files w !! dis_weights_path (self w)) as [c' |]; simpl; try reflexivity;
    destruct (ck_discriminator c'); simpl; try reflexivity;
    destruct (load_state_dict _ _); reflexivity.
Qed.


(** C7. After [save] and then [load] into a fresh controller of the same
    class, configuration and name (and so of the same architecture), the
    iteration counter and the generator parameters are the saved ones:
    [save] writes the counter and the generator state to the <name>_gen
    path and the discriminator state to the other, <name>_dis, path, and
    [load] reads them back from there (the discriminator in training
    mode). *)
Theorem save_load_roundtrip `{Torch} (k : controller) (config : config)
    (g d : network) (s fresh : model) (fs : gmap string checkpoint) :
  init k config g d = Ok fresh ->
  paths_derived s -> name s = name fresh -> cfg s = config ->
  length <$> generator s = length <$> generator fresh ->
  length <$> discriminator s = length <$> discriminator fresh ->
  exists w1 w2,
    BaseModel.save (start s fs) = Ok (tt, w1)
    /\ gen_weights_path s = os_path_join (PATH config) (name s ++ "_gen.pth")
    /\ dis_weights_path s = os_path_join (PATH config) (name s ++ "_dis.pth")
    /\ gen_weights_path s <> dis_weights_path s
    /\ files w1 !! gen_weights_path s =
         Some {| ck_iteration := Some (iteration s);
                 ck_generator := Some (generator s);
                 ck_discriminator := None |}
    /\ files w1 !! dis_weights_path s =
         Some {| ck_iteration := None; ck_generator := None;
                 ck_discriminator := Some (discriminator s) |}
    /\ BaseModel.load (start fresh (files w1)) = Ok (tt, w2)
    /\ iteration (self w2) = iteration s
    /\ generator (self w2) = generator s
    /\ In (ev_torch_load (gen_weights_path s)) (trace w2)
    /\ (MODE config = 1 -> discriminator (self w2) = discriminator s).
Proof.
  intros Hinit Hpaths Hname Hcfg Hgen Hdis.
  destruct (init_paths_derived _ _ _ _ _ Hinit) as [[Hfg Hfd] Hfc].
  pose proof (paths_distinct s Hpaths) as Hne.
  destruct Hpaths as [Hsg Hsd].
  assert (Hg : gen_weights_path fresh = gen_weights_path s) by congruence.
  assert (Hd : dis_weights_path fresh = dis_weights_path s) by congruence.
  rewrite save_spec. simpl.
  set (fs1 := <[dis_weights_path s := _]> (<[gen_weights_path s := _]> fs)).
  assert (Hlg : fs1 !! gen_weights_path s =
                Some {| ck_iteration := Some (iteration s);
                        ck_generator := Some (generator s);
                        ck_discriminator := None |}).
  { unfold fs1. rewrite lookup_insert_ne by congruence. apply lookup_insert_eq. }
  assert (Hld : fs1 !! dis_weights_path s =
                Some {| ck_iteration := None; ck_generator := None;
                        ck_discriminator := Some (discriminator s) |}).
  { unfold fs1. apply lookup_insert_eq. }
  destruct (Z.eq_dec (MODE config) 1) as [Hm | Hm].
  - eexists _, _. split; [reflexivity |].
    repeat (split; [first [congruence | eassumption] |]).
    split.
    { eapply (load_both (start fresh fs1)) with (it := iteration s) (sd := generator s)
        (sd' := discriminator s); simpl; rewrite ?Hg, ?Hd; try eassumption;
        try reflexivity; congruence. }
    simpl. rewrite Hg. repeat split; auto with datatypes.
  - eexists _, _. split; [reflexivity |].
    repeat (split; [first [congruence | eassumption] |]).
    split.
    { eapply (load_generator_only (start fresh fs1)) with (it := iteration s)
        (sd := generator s) (c := {| ck_iteration := Some (iteration s);
                                     ck_generator := Some (generator s);
                                     ck_discriminator := None |});
        simpl; rewrite ?Hg, ?Hd; try eassumption; try reflexivity.
      rewrite Hfc. apply Z.eqb_neq in Hm. now rewrite Hm. }
    simpl. rewrite Hg. repeat split; auto with datatypes. congruence.
Qed.

Lemma save_load_roundtrip_witness :
  exists w1 w2,
    BaseModel.save (start (example_trained SR) ∅) = Ok (tt, w1)
    /\ BaseModel.load (H := example_torch) (start (example_model SR) (files w1)) = Ok (tt, w2)
    /\ iteration (self w2) = 7
    /\ generator (self w2) = {[ "conv1.weight" := [qc 5; qc 6] ]}.
Proof.
  destruct (save_load_roundtrip (H := example_torch) SR example_config
              example_generator example_discriminator
              (example_trained SR) (example_model SR) ∅)
    as (w1 & w2 & Hs & _ & _ & _ & _ & _ & Hl & Hi & Hg & _);
    try reflexivity.
  - split; reflexivity.
  - exists w1, w2. repeat split; assumption.
Defined.



(** C10. With the discriminator file alone, in training mode, [load]
    restores the discriminator and leaves the counter and the generator
    as they are, whatever that file holds besides. The counter is
    written by [save] to the generator file and not to the
    discriminator file, and it is read from the generator file only. *)
Theorem load_discriminator_only `{Torch} (w : world) (c : checkpoint) (sd : network) :
  files w !! gen_weights_path (self w) = None ->
  files w !! dis_weights_path (self w) = Some c ->
  MODE (cfg (self w)) = 1 ->
  ck_discriminator c = Some sd ->
  length <$> sd = length <$> discriminator (self w) ->
  (exists w',
     BaseModel.load w = Ok (tt, w')
     /\ discriminator (self w') = sd
     /\ iteration (self w') = iteration (self w)
     /\ generator (self w') = generator (self w)
     /\ trace w' = (trace w ++ [ev_torch_load (dis_weights_path (self w))])%list)
  /\ (forall (s : model) (fs : gmap string checkpoint),
        paths_derived s ->
        exists w1,
          BaseModel.save (start s fs) = Ok (tt, w1)
          /\ (files w1 !! gen_weights_path s) ≫= ck_iteration = Some (iteration s)
          /\ (files w1 !! dis_weights_path s) ≫= ck_iteration = None).
Proof.
  intros Hgen Hdis Hm Hsd Hshape. split.
  - rewrite (load_no_generator w Hgen).
    apply Z.eqb_eq in Hm. rewrite Hm, Hdis, bool_decide_true by eauto. simpl.
    rewrite Hsd. unfold load_state_dict. rewrite bool_decide_true by done.
    eexists. repeat split; reflexivity.
  - intros s fs Hpaths. pose proof (paths_distinct s Hpaths) as Hne.
    rewrite save_spec. eexists. split; [reflexivity |]. simpl. split.
    + rewrite lookup_insert_ne by congruence. now rewrite lookup_insert_eq.
    + now rewrite lookup_insert_eq.
Qed.

Lemma load_discriminator_only_witness :
  exists w',
    BaseModel.load (H := example_torch) (example_discriminator_only Gradient) = Ok (tt, w')
    /\ discriminator (self w') = {[ "conv1.weight" := [qc 8] ]}
    /\ iteration (self w') = 0.
Proof.
  destruct (load_discriminator_only (H := example_torch)
              (example_discriminator_only Gradient)
              {| ck_iteration := None; ck_generator := None;
                 ck_discriminator := Some (discriminator (example_trained Gradient)) |}
              (discriminator (example_trained Gradient)))
    as ((w' & Hload & Hd & Hi & _) & _); try reflexivity.
  exists w'. repeat split; assumption.
Defined.

(** ** One training step *)

Section Step.
Context `{Torch}.

Lemma for_range_ok {A : Type} (P : nat -> Prop) (f : nat -> A -> A) (ev : nat -> event)
    (body : nat -> A -> M A) (range : list nat) (acc : A) (w : world) :
  (forall i a w0, P i -> body i a w0 = Ok (f i a, logged w0 [ev i])) ->
  Forall P range ->
  for_range range body acc w
  = Ok (fold_left (fun a i => f i a) range acc, logged w (map ev range)).
Proof.
  intros Hbody Hr. revert acc w. induction Hr as [| i range Hi Hr IH]; intros acc w.
  - unfold logged. simpl. unfold ret. rewrite app_nil_r. now destruct w.
  - cbn [for_range]. unfold bind. rewrite (Hbody i acc w Hi), IH.
    unfold logged. cbn [self files trace fold_left map].
    rewrite <- app_assoc. reflexivity.
Qed.

Lemma fold_py_add (t : nat -> loss) (l : list nat) (a : loss) :
  fold_left (fun a i => py_add a (PyTensor (t i))) l (PyTensor a)
  = PyTensor (fold_left add (map t l) a).
Proof. revert a. induction l as [| i l IH]; intros a; [reflexivity | apply IH]. Qed.

Lemma fold_py_add_0 (t : nat -> loss) (n : nat) (q : Qc) :
  (0 < n)%nat ->
  fold_left (fun a i => py_add a (PyTensor (t i))) (seq 0 n) (PyNum q)
  = PyTensor (fold_left add (map t (seq 0 n)) (number q)).
Proof.
  destruct n as [| n]; [lia | intros _]. cbn [seq fold_left map]. apply fold_py_add.
Qed.

Lemma seq_below (n : nat) : Forall (fun i => (i < n)%nat) (seq 0 n).
Proof. apply Forall_forall. intros i Hi. apply elem_of_seq in Hi. lia. Qed.

(** The steps of [process] up to the loop over the feature layers, the
    loop, and what follows it. *)
Ltac feature_matching_run Hn fake real fm_terms :=
  lazy beta iota zeta delta
    [EdgeModel.process EdgeModel.forward GradientModel.process GradientModel.forward
     increment_iteration zero_grad
     generator_call discriminator_call loss_call bind ret emit get_self put_self
     self files trace fst snd cfg set_grad set_iteration];
  rewrite length_map, length_seq;
  rewrite (for_range_ok (fun i => (i < Discriminator_layers)%nat)
             (fun i a => py_add a (PyTensor (fm_term fake real i)))
             (fun i => ev_loss (fm_term fake real i)));
  [ rewrite fold_py_add_0 by exact Hn;
    lazy beta iota zeta delta
      [logged py_add py_mul py_div as_loss item bind ret get_self
       self files trace set_grad set_iteration cfg];
    rewrite <- !app_assoc; cbn [app]; subst fm_terms; rewrite map_map;
    reflexivity
  | let i := fresh "i" in
    let Hi := fresh "Hi" in
    intros i ? ? Hi; unfold getitem;
    rewrite !list_lookup_fmap, !lookup_seq_lt by exact Hi; reflexivity
  | apply seq_below ].

Ltac feature_matching_raise Hn :=
  lazy beta iota zeta delta
    [EdgeModel.process EdgeModel.forward GradientModel.process GradientModel.forward
     increment_iteration zero_grad
     generator_call discriminator_call loss_call bind ret emit get_self put_self
     self files trace fst snd cfg set_grad set_iteration];
  rewrite length_map, length_seq, Hn;
  lazy beta iota zeta delta
    [seq for_range bind ret raise item get_self py_add py_mul py_div as_loss
     self files trace];
  reflexivity.

(** What [EdgeModel.process] returns and does when the discriminator
    has a feature layer. *)
Lemma EdgeModel_process_run (lr_images hr_images lr_edges hr_edges : tensor) (w : world) :
  (0 < Discriminator_layers)%nat ->
  let s := self w in
  let outputs :=
    generator_forward (cat (interpolate lr_images (SCALE (cfg s)))
                           (interpolate lr_edges (SCALE (cfg s)))) in
  let real := cat hr_images hr_edges in
  let fake := cat hr_images outputs in
  let adv_real := adversarial_loss (discriminator_forward real) true true in
  let adv_fake :=
    adversarial_loss (discriminator_forward (cat hr_images (detach outputs))) false true in
  let adv_gen := adversarial_loss (discriminator_forward fake) true false in
  let fm_terms := map (fm_term fake real) (seq 0 Discriminator_layers) in
  let dis_loss := add (number (Q2Qc 0)) (div (add adv_real adv_fake) (number (Q2Qc 2))) in
  let gen_gan_loss := mul adv_gen (number (ADV_LOSS_WEIGHT1 (cfg s))) in
  let gen_fm_loss :=
    mul (fold_left add fm_terms (number (Q2Qc 0))) (number (FM_LOSS_WEIGHT (cfg s))) in
  let gen_loss := add (add (number (Q2Qc 0)) gen_gan_loss) gen_fm_loss in
  EdgeModel.process lr_images hr_images lr_edges hr_edges w
  = Ok ((outputs, PyTensor gen_loss, PyTensor dis_loss,
         [("l_dis", loss_value (stepped s) dis_loss);
          ("l_gen", loss_value (stepped s) gen_gan_loss);
          ("l_fm", loss_value (stepped s) gen_fm_loss)]),
        {| self := stepped s;
           files := files w;
           trace :=
             trace w
             ++ [ev_iteration (iteration s + 1); ev_zero_grad Gen; ev_zero_grad Dis;
                 ev_forward Gen (cat (interpolate lr_images (SCALE (cfg s)))
                                     (interpolate lr_edges (SCALE (cfg s))));
                 ev_forward Dis real;
                 ev_forward Dis (cat hr_images (detach outputs));
                 ev_loss adv_real; ev_loss adv_fake;
                 ev_forward Dis fake; ev_loss adv_gen]
             ++ map ev_loss fm_terms |}).
Proof.
  intros Hn s outputs real fake adv_real adv_fake adv_gen fm_terms. intros.
  feature_matching_run Hn fake real fm_terms.
Qed.

(** Without a feature layer the feature-matching loss stays the Python
    number it starts as, and its [.item()] raises. *)
Lemma EdgeModel_process_no_layers (lr_images hr_images lr_edges hr_edges : tensor)
    (w : world) :
  Discriminator_layers = 0%nat ->
  EdgeModel.process lr_images hr_images lr_edges hr_edges w
  = Raise (AttributeError "item").
Proof. intros Hn. feature_matching_raise Hn. Qed.

(** [GradientModel.process] does the same, with gradient maps for edges. *)
Lemma GradientModel_process_run (lr_images hr_images lr_gradients hr_gradients : tensor) (w : world) :
  (0 < Discriminator_layers)%nat ->
  let s := self w in
  let outputs :=
    generator_forward (cat (interpolate lr_images (SCALE (cfg s)))
                           (interpolate lr_gradients (SCALE (cfg s)))) in
  let real := cat hr_images hr_gradients in
  let fake := cat hr_images outputs in
  let adv_real := adversarial_loss (discriminator_forward real) true true in
  let adv_fake :=
    adversarial_loss (discriminator_forward (cat hr_images (detach outputs))) false true in
  let adv_gen := adversarial_loss (discriminator_forward fake) true false in
  let fm_terms := map (fm_term fake real) (seq 0 Discriminator_layers) in
  let dis_loss := add (number (Q2Qc 0)) (div (add adv_real adv_fake) (number (Q2Qc 2))) in
  let gen_gan_loss := mul adv_gen (number (ADV_LOSS_WEIGHT1 (cfg s))) in
  let gen_fm_loss :=
    mul (fold_left add fm_terms (number (Q2Qc 0))) (number (FM_LOSS_WEIGHT (cfg s))) in
  let gen_loss := add (add (number (Q2Qc 0)) gen_gan_loss) gen_fm_loss in
  GradientModel.process lr_images hr_images lr_gradients hr_gradients w
  = Ok ((outputs, PyTensor gen_loss, PyTensor dis_loss,
         [("l_dis", loss_value (stepped s) dis_loss);
          ("l_gen", loss_value (stepped s) gen_gan_loss);
          ("l_fm", loss_value (stepped s) gen_fm_loss)]),
        {| self := stepped s;
           files := files w;
           trace :=
             trace w
             ++ [ev_iteration (iteration s + 1); ev_zero_grad Gen; ev_zero_grad Dis;
                 ev_forward Gen (cat (interpolate lr_images (SCALE (cfg s)))
                                     (interpolate lr_gradients (SCALE (cfg s))));
                 ev_forward Dis real;
                 ev_forward Dis (cat hr_images (detach outputs));
                 ev_loss adv_real; ev_loss adv_fake;
                 ev_forward Dis fake; ev_loss adv_gen]
             ++ map ev_loss fm_terms |}).
Proof.
  intros Hn s outputs real fake adv_real adv_fake adv_gen fm_terms. intros.
  feature_matching_run Hn fake real fm_terms.
Qed.

Lemma GradientModel_process_no_layers
    (lr_images hr_images lr_gradients hr_gradients : tensor) (w : world) :
  Discriminator_layers = 0%nat ->
  GradientModel.process lr_images hr_images lr_gradients hr_gradients w
  = Raise (AttributeError "item").
Proof. intros Hn. feature_matching_raise Hn. Qed.

(** What [SRModel.process] returns and does. *)
Lemma SRModel_process_run (lr_images hr_images lr_edges hr_edges : tensor) (w : world) :
  let s := self w in
  let outputs :=
    generator_forward
      (cat (conv_transpose2d lr_images (scale_kernel s) 0 (SCALE (cfg s)) 3) hr_edges) in
  let adv_real := adversarial_loss (discriminator_forward hr_images) true true in
  let adv_fake := adversarial_loss (discriminator_forward (detach outputs)) false true in
  let adv_gen := adversarial_loss (discriminator_forward outputs) true false in
  let dis_loss := add (number (Q2Qc 0)) (div (add adv_real adv_fake) (number (Q2Qc 2))) in
  let gen_gan_loss := mul adv_gen (number (ADV_LOSS_WEIGHT2 (cfg s))) in
  let gen_l1_loss := mul (L1_loss outputs hr_images) (number (L1_LOSS_WEIGHT (cfg s))) in
  let gen_content_loss :=
    mul (content_loss outputs hr_images) (number (CONTENT_LOSS_WEIGHT (cfg s))) in
  let gen_style_loss :=
    mul (style_loss outputs hr_images) (number (STYLE_LOSS_WEIGHT (cfg s))) in
  let gen_loss :=
    add (add (add (add (number (Q2Qc 0)) gen_gan_loss) gen_l1_loss) gen_content_loss)
      gen_style_loss in
  SRModel.process lr_images hr_images lr_edges hr_edges w
  = Ok ((outputs, PyTensor gen_loss, PyTensor dis_loss,
         [("l_dis", loss_value (stepped s) dis_loss);
          ("l_gen", loss_value (stepped s) gen_gan_loss);
          ("l_l1", loss_value (stepped s) gen_l1_loss);
          ("l_content", loss_value (stepped s) gen_content_loss);
          ("l_style", loss_value (stepped s) gen_style_loss)]),
        {| self := stepped s;
           files := files w;
           trace :=
             trace w
             ++ [ev_iteration (iteration s + 1); ev_zero_grad Gen; ev_zero_grad Dis;
                 ev_forward Gen
                   (cat (conv_transpose2d lr_images (scale_kernel s) 0 (SCALE (cfg s)) 3)
                        hr_edges);
                 ev_forward Dis hr_images;
                 ev_forward Dis (detach outputs);
                 ev_loss adv_real; ev_loss adv_fake;
                 ev_forward Dis outputs; ev_loss adv_gen;
                 ev_loss (L1_loss outputs hr_images);
                 ev_loss (content_loss outputs hr_images);
                 ev_loss (style_loss outputs hr_images)] |}).
Proof.
  intros.
  lazy beta iota zeta delta
    [SRModel.process SRModel.forward increment_iteration zero_grad
     generator_call discriminator_call loss_call bind ret emit get_self put_self
     self files trace fst snd cfg scale_kernel set_grad set_iteration
     py_add py_mul py_div as_loss item].
  rewrite <- !app_assoc. reflexivity.
Qed.

End Step.

(** ** The three controllers together *)

Section Controllers.
Context `{Torch}.

(** One [process] of any of the three classes. *)
Lemma process_run (k : controller) (lr_images hr_images lr_guide hr_guide : tensor)
    (w : world) :
  runnable k ->
  let s := self w in
  let outputs := generator_forward (generator_input k s lr_images lr_guide hr_guide) in
  let dis_loss := dis_loss_of k hr_images hr_guide outputs in
  let terms := map weighted (gen_raw_terms k s hr_images hr_guide outputs) in
  process k lr_images hr_images lr_guide hr_guide w
  = Ok ((outputs, PyTensor (gen_loss_of k s hr_images hr_guide outputs), PyTensor dis_loss,
         combine (log_names k) (map (loss_value (stepped s)) (dis_loss :: terms))),
        {| self := stepped s;
           files := files w;
           trace := trace w ++ process_events k s lr_images hr_images lr_guide hr_guide |}).
Proof.
  intros Hk. destruct k; simpl.
  - destruct Hk as [Hk | Hn]; [discriminate |].
    now rewrite EdgeModel_process_run.
  - now rewrite SRModel_process_run.
  - destruct Hk as [Hk | Hn]; [discriminate |].
    now rewrite GradientModel_process_run.
Qed.

(** Where [process] cannot run, it raises. *)
Lemma process_not_runnable (k : controller) (lr_images hr_images lr_guide hr_guide : tensor)
    (w : world) :
  ~ runnable k ->
  process k lr_images hr_images lr_guide hr_guide w = Raise (AttributeError "item").
Proof.
  intros Hk.
  assert (Hn : Discriminator_layers = 0%nat).
  { destruct (Nat.eq_dec Discriminator_layers 0%nat); [assumption |].
    exfalso. apply Hk. right. lia. }
  destruct k; simpl.
  - now apply EdgeModel_process_no_layers.
  - exfalso. apply Hk. now left.
  - now apply GradientModel_process_no_layers.
Qed.

Lemma runnable_dec (k : controller) : {runnable k} + {~ runnable k}.
Proof.
  destruct k.
  - destruct (Nat.eq_dec Discriminator_layers 0%nat) as [Hn | Hn].
    + right. intros [Hk | Hl]; [discriminate | lia].
    + left. right. lia.
  - left. now left.
  - destruct (Nat.eq_dec Discriminator_layers 0%nat) as [Hn | Hn].
    + right. intros [Hk | Hl]; [discriminate | lia].
    + left. right. lia.
Qed.

End Controllers.

Lemma no_iteration_in_losses (ls : list loss) :
  forallb (fun e => negb (is_ev_iteration e)) (map ev_loss ls) = true.
Proof. induction ls as [| l ls IH]; [reflexivity | exact IH]. Qed.

Lemma no_forward_in_losses (n : net) (ls : list loss) :
  List.filter (is_ev_forward n) (map ev_loss ls) = [].
Proof. induction ls as [| l ls IH]; [reflexivity | exact IH]. Qed.

Lemma bind_ok {A B : Type} (m : M A) (k : A -> M B) (w w' : world) (a : A) :
  m w = Ok (a, w') -> bind m k w = k a w'.
Proof. intros Hm. unfold bind. now rewrite Hm. Qed.

Lemma loss_backward_run (l : loss) (w : world) :
  loss_backward (PyTensor l) w
  = Ok (tt, {| self := accumulate l (self w); files := files w;
               trace := trace w ++ [ev_backward l] |}).
Proof. reflexivity. Qed.

Lemma optimizer_step_run `{Torch} (n : net) (w : world) :
  optimizer_step n w
  = Ok (tt, {| self := apply_step n (self w); files := files w;
               trace := trace w ++ [ev_step n] |}).
Proof. reflexivity. Qed.

Lemma backward_run `{Torch} (k : controller) (gen_loss dis_loss : loss) (w : world) :
  backward k (PyTensor gen_loss) (PyTensor dis_loss) w
  = Ok (tt, {| self := apply_step Gen
                         (accumulate gen_loss
                            (apply_step Dis (accumulate dis_loss (self w))));
               files := files w;
               trace := trace w ++ [ev_backward dis_loss; ev_step Dis;
                                    ev_backward gen_loss; ev_step Gen] |}).
Proof.
  assert (Hrun : (loss_backward (PyTensor dis_loss) ;; optimizer_step Dis ;;
                  loss_backward (PyTensor gen_loss) ;; optimizer_step Gen) w
                 = Ok (tt, {| self := apply_step Gen
                                        (accumulate gen_loss
                                           (apply_step Dis (accumulate dis_loss (self w))));
                              files := files w;
                              trace := trace w ++ [ev_backward dis_loss; ev_step Dis;
                                                   ev_backward gen_loss; ev_step Gen] |})).
  { rewrite (bind_ok _ _ _ _ _ (loss_backward_run dis_loss w)).
    rewrite (bind_ok _ _ _ _ _ (optimizer_step_run Dis _)).
    rewrite (bind_ok _ _ _ _ _ (loss_backward_run gen_loss _)).
    rewrite optimizer_step_run. cbn [self files trace].
    rewrite <- !app_assoc. reflexivity. }
  destruct k; exact Hrun.
Qed.

Lemma accumulate_frame (l : loss) (s : model) :
  iteration (accumulate l s) = iteration s
  /\ generator (accumulate l s) = generator s
  /\ discriminator (accumulate l s) = discriminator s
  /\ gen_optimizer (accumulate l s) = gen_optimizer s
  /\ dis_optimizer (accumulate l s) = dis_optimizer s
  /\ gen_grad (accumulate l s) = (gen_grad s ++ (if loss_reaches Gen l then [l] else []))%list
  /\ dis_grad (accumulate l s) = (dis_grad s ++ (if loss_reaches Dis l then [l] else []))%list.
Proof.
  unfold accumulate.
  destruct (loss_reaches Gen l), (loss_reaches Dis l); cbn [iteration generator
    discriminator gen_optimizer dis_optimizer gen_grad dis_grad set_grad];
    rewrite ?app_nil_r; repeat split; reflexivity.
Qed.

(** C1. For each of the three controllers, [backward] back-propagates
    the discriminator loss, steps the discriminator optimizer, and only
    then back-propagates the generator loss and steps the generator
    optimizer: these are its four events, in this order, and the
    discriminator is updated from a gradient that holds nothing of the
    generator loss, while the generator is updated from what both
    backward passes left in its gradient. *)
Theorem backward_order `{Torch} (k : controller) (gen_loss dis_loss : loss) (w : world) :
  exists w',
    backward k (PyTensor gen_loss) (PyTensor dis_loss) w = Ok (tt, w')
    /\ trace w' =
         (trace w ++ [ev_backward dis_loss; ev_step Dis;
                      ev_backward gen_loss; ev_step Gen])%list
    /\ discriminator (self w') =
         Adam_step (dis_optimizer (self w)) (discriminator (self w))
           (dis_grad (self w) ++ (if loss_reaches Dis dis_loss then [dis_loss] else []))
    /\ generator (self w') =
         Adam_step (gen_optimizer (self w)) (generator (self w))
           (gen_grad (self w)
            ++ (if loss_reaches Gen dis_loss then [dis_loss] else [])
            ++ (if loss_reaches Gen gen_loss then [gen_loss] else []))
    /\ steps (dis_optimizer (self w')) = S (steps (dis_optimizer (self w)))
    /\ steps (gen_optimizer (self w')) = S (steps (gen_optimizer (self w))).
Proof.
  eexists. split; [apply backward_run |].
  cbn [self trace]. split; [reflexivity |].
  destruct (accumulate_frame dis_loss (self w)) as (_ & Hg1 & Hd1 & Hgo1 & Hdo1 & Hgg1 & Hdg1).
  destruct (accumulate_frame gen_loss (apply_step Dis (accumulate dis_loss (self w))))
    as (_ & Hg2 & Hd2 & Hgo2 & Hdo2 & Hgg2 & Hdg2).
  unfold apply_step at 1 3 5 7.
  cbn [generator discriminator gen_optimizer dis_optimizer set_optimizer set_network
       optimizer_of network_of grad_of steps].
  rewrite Hd2, Hg2, Hgo2, Hdo2, Hgg2.
  unfold apply_step.
  cbn [generator discriminator gen_optimizer dis_optimizer gen_grad set_optimizer
       set_network optimizer_of network_of grad_of steps].
  rewrite Hg1, Hd1, Hgo1, Hdo1, Hgg1, Hdg1, <- app_assoc.
  repeat split; reflexivity.
Qed.

(** C5. The counter is 0 after construction; a [process] that returns
    has added exactly 1 to it, and did so first: the increment is the
    first event of the call, before the gradients are cleared, before
    the generator runs and before any loss module is called, and no
    second increment follows; [process] does return for a discriminator
    with a feature layer (for the SR controller, always); and no
    operation other than [load] lowers the counter. *)
Theorem iteration_counter `{Torch} :
  (forall k config g d s, init k config g d = Ok s -> iteration s = 0)
  /\ (forall k lr_images hr_images lr_guide hr_guide w r w',
        process k lr_images hr_images lr_guide hr_guide w = Ok (r, w') ->
        iteration (self w') = iteration (self w) + 1
        /\ exists rest,
             trace w' = (trace w ++ ev_iteration (iteration (self w) + 1) :: rest)%list
             /\ forallb (fun e => negb (is_ev_iteration e)) rest = true
             /\ In (ev_zero_grad Gen) rest
             /\ In (ev_zero_grad Dis) rest
             /\ (exists inputs, In (ev_forward Gen inputs) rest)
             /\ (exists l, In (ev_loss l) rest))
  /\ (forall k lr_images hr_images lr_guide hr_guide w,
        runnable k ->
        exists r w', process k lr_images hr_images lr_guide hr_guide w = Ok (r, w'))
  /\ (forall k op w w',
        run_operation k op w = Ok (tt, w') -> iteration (self w) <= iteration (self w')).
Proof.
  split; [| split; [| split]].
  - intros k config g d s. destruct k; simpl.
    + now intros [= <-].
    + unfold SRModel.__init__. destruct (np_setitem _ _ _ _); [| discriminate].
      now intros [= <-].
    + now intros [= <-].
  - intros k lr_images hr_images lr_guide hr_guide w r w'.
    destruct (runnable_dec k) as [Hk | Hk].
    + rewrite (process_run k _ _ _ _ w Hk). intros Heq.
      injection Heq as _ Hw'. subst w'. cbn [self trace].
      split; [reflexivity |].
      exists (tl (process_events k (self w) lr_images hr_images lr_guide hr_guide)).
      split; [reflexivity |].
      unfold process_events. cbn [tl app].
      split.
      { cbn [forallb negb is_ev_iteration andb]. apply no_iteration_in_losses. }
      cbn [In].
      split; [now left |]. split; [right; now left |].
      split; eexists; [do 2 right; now left | do 5 right; now left].
    + rewrite (process_not_runnable k _ _ _ _ w Hk). discriminate.
  - intros k lr_images hr_images lr_guide hr_guide w Hk.
    rewrite (process_run k _ _ _ _ w Hk). eauto.
  - intros k op w w'. destruct op as [| a b | a b c d | g d]; cbn [run_operation].
    + rewrite save_spec. intros Heq. injection Heq as Hw'. subst w'. cbn. lia.
    + destruct k; unfold forward, EdgeModel.forward, SRModel.forward, GradientModel.forward,
        generator_call, bind, ret, emit, get_self;
        intros Heq; injection Heq as Hw'; subst w'; cbn; lia.
    + unfold bind at 1.
      destruct (runnable_dec k) as [Hk | Hk].
      * rewrite (process_run k _ _ _ _ w Hk). unfold ret.
        intros Heq. injection Heq as Hw'. subst w'. cbn. lia.
      * rewrite (process_not_runnable k _ _ _ _ w Hk). discriminate.
    + destruct d as [q | d].
      { destruct k; discriminate. }
      destruct g as [q | g].
      { destruct k; cbn [backward];
          unfold EdgeModel.backward, SRModel.backward, GradientModel.backward,
            loss_backward, optimizer_step, bind, ret, raise, emit, get_self, put_self;
          discriminate. }
      rewrite backward_run. intros Heq. injection Heq as Hw'. subst w'.
      cbn [self]. unfold apply_step at 1.
      cbn [iteration set_optimizer set_network].
      destruct (accumulate_frame g (apply_step Dis (accumulate d (self w)))) as [-> _].
      unfold apply_step. cbn [iteration set_optimizer set_network].
      destruct (accumulate_frame d (self w)) as [-> _]. lia.
Qed.

Lemma iteration_counter_witness :
  exists r w',
    process (H := example_torch) Edge (from_data example_lr_images)
      (from_data example_hr_images) (from_data example_lr_edges)
      (from_data example_hr_edges) (start (example_trained Edge) ∅) = Ok (r, w')
    /\ iteration (self w') = 8.
Proof.
  destruct (iteration_counter (H := example_torch)) as (_ & Hstep & Hruns & _).
  destruct (Hruns Edge (from_data example_lr_images) (from_data example_hr_images)
              (from_data example_lr_edges) (from_data example_hr_edges)
              (start (example_trained Edge) ∅)) as (r & w' & Hrun).
  - right. cbn. lia.
  - exists r, w'. split; [exact Hrun |].
    destruct (Hstep _ _ _ _ _ _ _ _ Hrun) as [Hit _]. exact Hit.
Defined.

Lemma loss_value_fold `{Torch} (s : model) (l : list loss) (a : loss) :
  loss_value s (fold_left add l a) = (loss_value s a + sumQc (map (loss_value s) l))%Qc.
Proof.
  revert a. induction l as [| x l IH]; intros a; cbn [fold_left map].
  - unfold sumQc. cbn [fold_right]. ring.
  - rewrite IH.
    change (sumQc (loss_value s x :: map (loss_value s) l))
      with (loss_value s x + sumQc (map (loss_value s) l))%Qc.
    cbn [loss_value]. ring.
Qed.

Lemma loss_reaches_fold (n : net) (l : list loss) (a : loss) :
  loss_reaches n (fold_left add l a) = loss_reaches n a || existsb (loss_reaches n) l.
Proof.
  revert a. induction l as [| x l IH]; intros a; cbn [fold_left existsb].
  - now rewrite orb_false_r.
  - rewrite IH. cbn [loss_reaches]. now rewrite orb_assoc.
Qed.

Lemma filter_forward_app (n : net) (evs : list event) (ls : list loss) :
  List.filter (is_ev_forward n) (evs ++ map ev_loss ls) = List.filter (is_ev_forward n) evs.
Proof. now rewrite List.filter_app, no_forward_in_losses, app_nil_r. Qed.

(** C2. In a [process] whose target tensors carry no gradient path to
    the generator (as the tensors of a dataset do), the generator runs
    once; the discriminator is run on the real input, on the input made
    of the detached copy of that one output, and on the input made of
    the output itself; the discriminator loss is computed from the first
    two and has no path to the generator, so that back-propagating it
    alone leaves the gradient of the generator parameters zero, while
    the generator loss, computed from the third, does reach them. *)
Theorem discriminator_branch_detached `{Torch} (k : controller)
    (lr_images hr_images lr_guide hr_guide : tensor) (w : world) :
  runnable k ->
  reaches Gen hr_images = false ->
  reaches Gen hr_guide = false ->
  exists outputs gen_loss dis_loss logs w' w'' evs inputs,
    process k lr_images hr_images lr_guide hr_guide w
      = Ok ((outputs, PyTensor gen_loss, PyTensor dis_loss, logs), w')
    /\ trace w' = (trace w ++ evs)%list
    /\ List.filter (is_ev_forward Gen) evs = [ev_forward Gen inputs]
    /\ outputs = generator_forward inputs
    /\ List.filter (is_ev_forward Dis) evs =
         [ev_forward Dis (real_input k hr_images hr_guide);
          ev_forward Dis (fake_input k hr_images (detach outputs));
          ev_forward Dis (fake_input k hr_images outputs)]
    /\ dis_loss =
         add (number (Q2Qc 0))
           (div (add (adversarial_loss
                        (discriminator_forward (real_input k hr_images hr_guide)) true true)
                     (adversarial_loss
                        (discriminator_forward (fake_input k hr_images (detach outputs)))
                        false true))
                (number (Q2Qc 2)))
    /\ loss_reaches Gen dis_loss = false
    /\ loss_reaches Gen gen_loss = true
    /\ loss_reaches Gen
         (adversarial_loss (discriminator_forward (fake_input k hr_images outputs))
            true false) = true
    /\ gen_grad (self w') = []
    /\ loss_backward (PyTensor dis_loss) w' = Ok (tt, w'')
    /\ gen_grad (self w'') = []
    /\ dis_grad (self w'') = [dis_loss].
Proof.
  intros Hk Hhr Hguide.
  assert (Hdis : loss_reaches Gen
                   (dis_loss_of k hr_images hr_guide
                      (generator_forward
                         (generator_input k (self w) lr_images lr_guide hr_guide))) = false).
  { destruct k; cbn; now rewrite ?Hhr, ?Hguide. }
  assert (Hdis' : loss_reaches Dis
                    (dis_loss_of k hr_images hr_guide
                       (generator_forward
                          (generator_input k (self w) lr_images lr_guide hr_guide))) = true).
  { reflexivity. }
  do 5 eexists. exists
    {| self := set_grad Dis [dis_loss_of k hr_images hr_guide
                               (generator_forward
                                  (generator_input k (self w) lr_images lr_guide hr_guide))]
                 (stepped (self w));
       files := files w;
       trace := (trace w ++ process_events k (self w) lr_images hr_images lr_guide hr_guide)
                ++ [ev_backward (dis_loss_of k hr_images hr_guide
                                   (generator_forward
                                      (generator_input k (self w) lr_images lr_guide
                                         hr_guide)))] |}.
  do 2 eexists.
  split; [apply (process_run k _ _ _ _ w Hk) |].
  cbn [self trace].
  split; [reflexivity |].
  split; [unfold process_events; rewrite filter_forward_app; reflexivity |].
  split; [reflexivity |].
  split; [unfold process_events; rewrite filter_forward_app; reflexivity |].
  split; [reflexivity |].
  split; [exact Hdis |].
  split.
  { unfold gen_loss_of. rewrite loss_reaches_fold.
    destruct k; cbn; now rewrite ?orb_true_r. }
  split; [destruct k; cbn; now rewrite ?orb_true_r |].
  split; [reflexivity |].
  split; [| split; reflexivity].
  rewrite loss_backward_run. cbn [self files trace].
  unfold accumulate. rewrite Hdis, Hdis'. reflexivity.
Qed.

Lemma discriminator_branch_detached_witness :
  exists outputs gen_loss dis_loss logs w' w'',
    process (H := example_torch) SR (from_data example_lr_images)
      (from_data example_hr_images) (from_data example_lr_edges)
      (from_data example_hr_edges) (start (example_model SR) ∅)
      = Ok ((outputs, PyTensor gen_loss, PyTensor dis_loss, logs), w')
    /\ loss_backward (PyTensor dis_loss) w' = Ok (tt, w'')
    /\ gen_grad (self w'') = []
    /\ dis_grad (self w'') = [dis_loss].
Proof.
  destruct (discriminator_branch_detached (H := example_torch) SR
              (from_data example_lr_images) (from_data example_hr_images)
              (from_data example_lr_edges) (from_data example_hr_edges)
              (start (example_model SR) ∅))
    as (outputs & gen_loss & dis_loss & logs & w' & w'' & evs & inputs & Hrun & _ & _ & _
        & _ & _ & _ & _ & _ & _ & Hback & Hgen & Hdis).
  - now left.
  - reflexivity.
  - reflexivity.
  - exists outputs, gen_loss, dis_loss, logs, w', w''. repeat split; assumption.
Defined.

Section Values_of_losses.
Context `{Torch}.

Lemma feature_matching_fold (s : model) (fake real : tensor) :
  loss_value s (fold_left add (map (fm_term fake real) (seq 0 Discriminator_layers))
                  (number (Q2Qc 0)))
  = feature_matching_value s fake real.
Proof.
  rewrite loss_value_fold, map_map. cbn [loss_value]. rewrite Qcplus_0_l. reflexivity.
Qed.

Lemma dis_loss_value (k : controller) (s : model) (hr_images hr_guide outputs : tensor) :
  loss_value s (dis_loss_of k hr_images hr_guide outputs)
  = ((adversarial_value s (real_input k hr_images hr_guide) true true
      + adversarial_value s (fake_input k hr_images (detach outputs)) false true)
     / Q2Qc 2)%Qc.
Proof. unfold dis_loss_of. cbn [loss_value]. now rewrite Qcplus_0_l. Qed.

Lemma gen_loss_value (k : controller) (s : model) (hr_images hr_guide outputs : tensor) :
  loss_value s (gen_loss_of k s hr_images hr_guide outputs)
  = weighted_sum k s hr_images hr_guide outputs.
Proof.
  unfold gen_loss_of, weighted_sum, gen_raw_terms, weighted, adversarial_value.
  destruct k; cbn [map fold_left fst snd loss_value fake_input real_input];
    rewrite ?feature_matching_fold; cbn [value]; ring.
Qed.

Lemma log_values (k : controller) (s : model) (hr_images hr_guide outputs : tensor) :
  combine (log_names k)
    (map (loss_value s)
       (dis_loss_of k hr_images hr_guide outputs
        :: map weighted (gen_raw_terms k s hr_images hr_guide outputs)))
  = log_entries k s hr_images hr_guide outputs.
Proof.
  unfold log_entries, gen_raw_terms, weighted, adversarial_value.
  destruct k;
    cbn [map combine log_names fst snd fake_input real_input];
    rewrite dis_loss_value; cbn [loss_value];
    rewrite ?feature_matching_fold; reflexivity.
Qed.

End Values_of_losses.

(** C3. In every [process] that returns, the discriminator loss is the
    adversarial loss of the real input with target real plus that of the
    detached generated input with target fake, divided by 2, and the
    generator loss is the sum of its raw terms each times its weight:
    adversarial times ADV_LOSS_WEIGHT1 plus feature matching times
    FM_LOSS_WEIGHT for the Edge and Gradient controllers, adversarial
    times ADV_LOSS_WEIGHT2 plus L1 times L1_LOSS_WEIGHT plus content
    times CONTENT_LOSS_WEIGHT plus style times STYLE_LOSS_WEIGHT for the
    SR controller; and [process] returns whenever the discriminator has
    a feature layer. *)
Theorem loss_composition `{Torch} (k : controller)
    (lr_images hr_images lr_guide hr_guide : tensor) (w : world) :
  runnable k ->
  exists outputs gen_loss dis_loss logs w',
    process k lr_images hr_images lr_guide hr_guide w
      = Ok ((outputs, PyTensor gen_loss, PyTensor dis_loss, logs), w')
    /\ loss_value (self w') dis_loss =
         ((adversarial_value (self w') (real_input k hr_images hr_guide) true true
           + adversarial_value (self w') (fake_input k hr_images (detach outputs)) false true)
          / Q2Qc 2)%Qc
    /\ loss_value (self w') gen_loss =
         match k with
         | SR =>
             (adversarial_value (self w') outputs true false * ADV_LOSS_WEIGHT2 (cfg (self w))
              + L1Loss (value (self w') outputs) (value (self w') hr_images)
                * L1_LOSS_WEIGHT (cfg (self w))
              + ContentLoss (value (self w') outputs) (value (self w') hr_images)
                * CONTENT_LOSS_WEIGHT (cfg (self w))
              + StyleLoss (value (self w') outputs) (value (self w') hr_images)
                * STYLE_LOSS_WEIGHT (cfg (self w)))%Qc
         | Edge | Gradient =>
             (adversarial_value (self w') (cat hr_images outputs) true false
              * ADV_LOSS_WEIGHT1 (cfg (self w))
              + feature_matching_value (self w') (cat hr_images outputs)
                  (cat hr_images hr_guide)
                * FM_LOSS_WEIGHT (cfg (self w)))%Qc
         end.
Proof.
  intros Hk. do 5 eexists.
  split; [apply (process_run k _ _ _ _ w Hk) |].
  cbn [self]. split; [apply dis_loss_value |].
  pose proof (gen_loss_value k (stepped (self w)) hr_images hr_guide
                (generator_forward (generator_input k (self w) lr_images lr_guide hr_guide)))
    as Hgen.
  destruct k; exact Hgen.
Qed.

Lemma loss_composition_witness :
  exists outputs gen_loss dis_loss logs w',
    process (H := example_torch) Edge (from_data example_lr_images)
      (from_data example_hr_images) (from_data example_lr_edges)
      (from_data example_hr_edges) (start (example_model Edge) ∅)
      = Ok ((outputs, PyTensor gen_loss, PyTensor dis_loss, logs), w')
    /\ loss_value (H := example_torch) (self w') dis_loss = qc 2
    /\ loss_value (H := example_torch) (self w') gen_loss = Q2Qc (7 # 10).
Proof.
  destruct (loss_composition (H := example_torch) Edge
              (from_data example_lr_images) (from_data example_hr_images)
              (from_data example_lr_edges) (from_data example_hr_edges)
              (start (example_model Edge) ∅))
    as (outputs & gen_loss & dis_loss & logs & w' & Hrun & Hdis & Hgen).
  - right. cbn. lia.
  - exists outputs, gen_loss, dis_loss, logs, w'.
    split; [exact Hrun |].
    rewrite Hdis, Hgen.
    split; apply Qc_is_canon; reflexivity.
Defined.

(** C4. The log a [process] returns has one entry for each term of the
    two losses, in the order of the source: "l_dis", "l_gen", "l_fm" for
    the Edge and Gradient controllers and "l_dis", "l_gen", "l_l1",
    "l_content", "l_style" for the SR controller; "l_dis" holds the
    averaged discriminator loss, the others hold the weighted terms, and
    these add up to the generator loss. *)
Theorem loss_log `{Torch} (k : controller)
    (lr_images hr_images lr_guide hr_guide : tensor) (w : world) :
  runnable k ->
  exists outputs gen_loss dis_loss logs w',
    process k lr_images hr_images lr_guide hr_guide w
      = Ok ((outputs, PyTensor gen_loss, PyTensor dis_loss, logs), w')
    /\ map fst logs =
         match k with
         | SR => ["l_dis"; "l_gen"; "l_l1"; "l_content"; "l_style"]
         | Edge | Gradient => ["l_dis"; "l_gen"; "l_fm"]
         end
    /\ logs = log_entries k (self w') hr_images hr_guide outputs
    /\ (exists rest, logs = ("l_dis", loss_value (self w') dis_loss) :: rest
          /\ loss_value (self w') gen_loss = sumQc (map snd rest)).
Proof.
  intros Hk.
  set (s' := stepped (self w)).
  set (outputs := generator_forward (generator_input k (self w) lr_images lr_guide hr_guide)).
  exists outputs, (gen_loss_of k s' hr_images hr_guide outputs),
    (dis_loss_of k hr_images hr_guide outputs),
    (log_entries k s' hr_images hr_guide outputs),
    {| self := s'; files := files w;
       trace := trace w ++ process_events k (self w) lr_images hr_images lr_guide hr_guide |}.
  split.
  { rewrite (process_run k _ _ _ _ w Hk).
    rewrite <- (log_values k s' hr_images hr_guide outputs). reflexivity. }
  cbn [self].
  split; [destruct k; reflexivity |].
  split; [reflexivity |].
  rewrite gen_loss_value, dis_loss_value.
  destruct k; cbn [log_entries]; eexists; (split; [reflexivity |]);
    unfold sumQc; cbn [map snd fold_right weighted_sum fake_input real_input]; ring.
Qed.

Lemma loss_log_witness :
  exists outputs gen_loss dis_loss logs w',
    process (H := example_torch) SR (from_data example_lr_images)
      (from_data example_hr_images) (from_data example_lr_edges)
      (from_data example_hr_edges) (start (example_model SR) ∅)
      = Ok ((outputs, PyTensor gen_loss, PyTensor dis_loss, logs), w')
    /\ map fst logs = ["l_dis"; "l_gen"; "l_l1"; "l_content"; "l_style"].
Proof.
  destruct (loss_log (H := example_torch) SR
              (from_data example_lr_images) (from_data example_hr_images)
              (from_data example_lr_edges) (from_data example_hr_edges)
              (start (example_model SR) ∅))
    as (outputs & gen_loss & dis_loss & logs & w' & Hrun & Hnames & _).
  - now left.
  - exists outputs, gen_loss, dis_loss, logs, w'. split; assumption.
Defined.

(** ** The upsampling of the SR controller *)

Section Upsampling.
Local Open Scope nat_scope.

Lemma np_setitem_unit (s : nat) :
  np_setitem (np_zeros s s) 0 0 (Q2Qc 1)
  = if (0 <? s) then Ok (unit_kernel s) else Raise IndexError.
Proof.
  destruct s as [| n]; [reflexivity |].
  unfold np_setitem, np_zeros. cbn [repeat lookup list_lookup length Nat.ltb Nat.leb].
  reflexivity.
Qed.

Lemma pixel_zeros (n m i j : nat) : pixel (repeat (repeat (Q2Qc 0) m) n) i j = Q2Qc 0.
Proof.
  unfold pixel. revert i. induction n as [| n IH]; intros i; cbn [repeat].
  - destruct i, j; reflexivity.
  - destruct i as [| i]; [| apply IH]. cbn [nth]. apply nth_repeat.
Qed.

Lemma unit_kernel_pixel (s ki kj : nat) :
  0 < s ->
  pixel (unit_kernel s) ki kj = if (ki =? 0) && (kj =? 0) then Q2Qc 1 else Q2Qc 0.
Proof.
  intros Hs. destruct s as [| n]; [lia |].
  unfold unit_kernel, np_zeros. cbn [repeat insert list_insert].
  destruct ki as [| ki].
  - destruct kj as [| kj]; [reflexivity |].
    unfold pixel. cbn [nth Nat.eqb andb]. apply nth_repeat.
  - cbn [Nat.eqb andb]. unfold pixel. cbn [nth].
    apply (pixel_zeros n (S n) ki kj).
Qed.

Lemma sumQc_zero {A : Type} (f : A -> Qc) (l : list A) :
  (forall a, In a l -> f a = Q2Qc 0) -> sumQc (map f l) = Q2Qc 0.
Proof.
  induction l as [| a l IH]; intros Hf; [reflexivity |].
  cbn [map sumQc fold_right]. fold (sumQc (map f l)).
  rewrite (Hf a) by now left. rewrite IH by (intros; apply Hf; now right).
  apply Qcplus_0_l.
Qed.

Lemma sumQc_first (f : nat -> Qc) (n : nat) :
  (forall k, 0 < k -> f k = Q2Qc 0) -> sumQc (map f (seq 0 (S n))) = f 0.
Proof.
  intros Hf. cbn [seq map sumQc fold_right]. fold (sumQc (map f (seq 1 n))).
  rewrite sumQc_zero; [apply Qcplus_0_r |].
  intros k Hk. apply in_seq in Hk. apply Hf. lia.
Qed.

Lemma conv_transpose2d_pixel_unit (s : nat) (ch : list (list Qc)) (y x : nat) :
  0 < s ->
  conv_transpose2d_pixel ch (unit_kernel s) 0 s y x = upsampled_pixel s ch y x.
Proof.
  intros Hs. unfold conv_transpose2d_pixel.
  assert (Hlen : length (unit_kernel s) = s).
  { unfold unit_kernel, np_zeros. now rewrite length_insert, repeat_length. }
  assert (Hlen' : length (hd [] (unit_kernel s)) = s).
  { destruct s as [| n]; [lia |]. unfold unit_kernel, np_zeros.
    cbn [repeat insert list_insert hd length]. now rewrite repeat_length. }
  rewrite Hlen, Hlen'.
  destruct s as [| n]; [lia |].
  rewrite sumQc_first.
  - rewrite sumQc_first.
    + unfold tap_source, upsampled_pixel.
      rewrite !Nat.add_0_r, !Nat.sub_0_r. cbn [Nat.leb andb].
      rewrite (unit_kernel_pixel (S n) 0 0 Hs). cbn [Nat.eqb andb].
      destruct (y mod S n =? 0), (x mod S n =? 0); cbn [andb]; try reflexivity.
      destruct (_ <? _), (_ <? _); cbn [andb]; try reflexivity.
      apply Qcmult_1_r.
    + intros k Hk.
      destruct (tap_source y 0 0 (S n)), (tap_source x k 0 (S n)); try reflexivity.
      rewrite (unit_kernel_pixel (S n) 0 k Hs).
      destruct k; [lia |]. cbn [Nat.eqb andb].
      destruct (_ && _); [apply Qcmult_0_r | reflexivity].
  - intros k Hk. apply sumQc_zero. intros kj _.
    destruct (tap_source y k 0 (S n)), (tap_source x kj 0 (S n)); try reflexivity.
    rewrite (unit_kernel_pixel (S n) k kj Hs).
    destruct k; [lia |]. cbn [Nat.eqb andb].
    destruct (_ && _); [apply Qcmult_0_r | reflexivity].
Qed.

Lemma conv_transpose2d_size_unit (n s : nat) : conv_transpose2d_size n s 0 s = s * n.
Proof. unfold conv_transpose2d_size. lia. Qed.

Lemma unit_kernel_length (s : nat) : length (unit_kernel s) = s.
Proof. unfold unit_kernel, np_zeros. now rewrite length_insert, repeat_length. Qed.

Lemma unit_kernel_width (s : nat) : length (hd [] (unit_kernel s)) = s.
Proof.
  destruct s as [| n]; [reflexivity |]. unfold unit_kernel, np_zeros.
  cbn [repeat insert list_insert hd length]. now rewrite repeat_length.
Qed.

Lemma conv_transpose2d_channel_unit (s : nat) (ch : list (list Qc)) :
  0 < s ->
  conv_transpose2d_channel ch (unit_kernel s) 0 s = upsample_channel s ch.
Proof.
  intros Hs. unfold conv_transpose2d_channel, upsample_channel.
  rewrite unit_kernel_length, unit_kernel_width, !conv_transpose2d_size_unit.
  apply map_ext. intros y. apply map_ext. intros x.
  now apply conv_transpose2d_pixel_unit.
Qed.

Lemma F_conv_transpose2d_unit (s : nat) (x : ndarray) :
  0 < s ->
  Forall (fun img => length img = 3) x ->
  F_conv_transpose2d x (np_tile (unit_kernel s) 3) 0 s 3
  = map (map (upsample_channel s)) x.
Proof.
  intros Hs Hx. unfold F_conv_transpose2d.
  apply map_ext_Forall. eapply Forall_impl; [exact Hx |].
  intros img Himg. cbn beta in *.
  destruct img as [| c1 [| c2 [| c3 [| c4 img]]]]; try discriminate.
  cbn [np_tile repeat take zip_with map hd].
  now rewrite !conv_transpose2d_channel_unit.
Qed.

Lemma every_from_skip {A : Type} (f : nat -> A) (s k b r : nat) :
  every_from s k (map f (seq b (k + r))) = every_from s 0 (map f (seq (b + k) r)).
Proof.
  revert b. induction k as [| k IH]; intros b.
  - now rewrite Nat.add_0_r.
  - cbn [Nat.add seq map every_from]. rewrite IH. now rewrite Nat.add_succ_r.
Qed.

Lemma every_from_seq {A : Type} (f : nat -> A) (s n a : nat) :
  0 < s ->
  every_from s 0 (map f (seq a (s * n))) = map (fun i => f (a + s * i)) (seq 0 n).
Proof.
  intros Hs. revert a. induction n as [| n IH]; intros a.
  - now rewrite Nat.mul_0_r.
  - destruct s as [| m]; [lia |].
    replace (S m * S n) with (S (m + S m * n)) by lia.
    cbn [seq map every_from]. rewrite Nat.sub_1_r. cbn [Nat.pred].
    rewrite every_from_skip, IH by lia.
    rewrite Nat.mul_0_r, Nat.add_0_r. f_equal.
    rewrite <- seq_shift, map_map. apply map_ext. intros i. f_equal. lia.
Qed.

Lemma map_nth_seq {A : Type} (d : A) (l : list A) :
  map (fun j => nth j l d) (seq 0 (length l)) = l.
Proof.
  induction l as [| a l IH]; [reflexivity |].
  cbn [length seq map nth]. f_equal.
  rewrite <- seq_shift, map_map. exact IH.
Qed.

Lemma map_pixel_seq (ch : list (list Qc)) (w : nat) :
  Forall (fun row => length row = w) ch ->
  map (fun i => map (fun j => pixel ch i j) (seq 0 w)) (seq 0 (length ch)) = ch.
Proof.
  induction 1 as [| row ch Hrow Hch IH]; [reflexivity |].
  cbn [length seq map]. f_equal.
  - unfold pixel. cbn [nth]. rewrite <- Hrow. apply map_nth_seq.
  - rewrite <- seq_shift, map_map. exact IH.
Qed.

Lemma rect_width (h w : nat) (ch : list (list Qc)) :
  rect h w ch -> Forall (fun row => length row = length (hd [] ch)) ch.
Proof.
  intros [_ Hrows]. destruct ch as [| row ch]; [constructor |].
  cbn [hd]. inversion Hrows as [| ? ? Hrow Hrest]; subst.
  constructor; [reflexivity |].
  eapply Forall_impl; [exact Hrest |]. cbn beta. intros r Hr. congruence.
Qed.

Lemma upsample_channel_rect (s h w : nat) (ch : list (list Qc)) :
  rect h w ch -> rect (s * h) (s * w) (upsample_channel s ch).
Proof.
  intros [Hh Hrows]. unfold rect, upsample_channel. split.
  - rewrite length_map, length_seq. now rewrite Hh.
  - apply Forall_map. apply Forall_forall. intros y Hy. cbn beta.
    rewrite length_map, length_seq.
    destruct ch as [| row ch].
    + apply elem_of_seq in Hy. cbn [length] in Hy. lia.
    + cbn [hd]. inversion Hrows; subst. reflexivity.
Qed.

Lemma upsample_channel_nonzero (s : nat) (ch : list (list Qc)) (r : list Qc)
    (y x : nat) (v : Qc) :
  upsample_channel s ch !! y = Some r -> r !! x = Some v -> v <> Q2Qc 0 ->
  y mod s = 0 /\ x mod s = 0.
Proof.
  unfold upsample_channel. intros Hr Hv Hne.
  rewrite list_lookup_fmap in Hr.
  destruct (seq 0 (s * length ch) !! y) as [y' |] eqn:Hy; [| discriminate].
  apply lookup_seq in Hy as [-> _]. cbn in Hr. injection Hr as <-.
  rewrite list_lookup_fmap in Hv.
  destruct (seq 0 (s * length (hd [] ch)) !! x) as [x' |] eqn:Hx; [| discriminate].
  apply lookup_seq in Hx as [-> _]. cbn in Hv. injection Hv as <-.
  unfold upsampled_pixel in Hne.
  destruct (y mod s =? 0) eqn:Hym; [| now cbn in Hne].
  destruct (x mod s =? 0) eqn:Hxm; [| now cbn in Hne].
  split; now apply Nat.eqb_eq.
Qed.

Lemma upsampled_pixel_grid (s : nat) (ch : list (list Qc)) (i j : nat) :
  0 < s -> i < length ch -> j < length (hd [] ch) ->
  upsampled_pixel s ch (s * i) (s * j) = pixel ch i j.
Proof.
  intros Hs Hi Hj. unfold upsampled_pixel.
  rewrite !(Nat.mul_comm s), !Nat.Div0.mod_mul, !Nat.div_mul by lia.
  apply Nat.ltb_lt in Hi, Hj. now rewrite Hi, Hj.
Qed.

Lemma downsample_upsample_channel (s h w : nat) (ch : list (list Qc)) :
  0 < s -> rect h w ch ->
  map (every_from s 0) (every_from s 0 (upsample_channel s ch)) = ch.
Proof.
  intros Hs Hch. pose proof (rect_width h w ch Hch) as Hrows.
  unfold upsample_channel.
  rewrite every_from_seq by exact Hs. rewrite map_map.
  etransitivity; [| exact (map_pixel_seq ch (length (hd [] ch)) Hrows)].
  apply map_ext_in. intros i Hi. apply in_seq in Hi.
  rewrite every_from_seq by exact Hs.
  apply map_ext_in. intros j Hj. apply in_seq in Hj.
  apply upsampled_pixel_grid; lia.
Qed.

Lemma SRModel_init_kernel `{Torch} (config : config) (g d : network) (s : model) :
  SRModel.__init__ config g d = Ok s ->
  0 < SCALE config
  /\ scale_kernel s = np_tile (unit_kernel (SCALE config)) 3
  /\ cfg s = config.
Proof.
  unfold SRModel.__init__. rewrite np_setitem_unit.
  destruct (0 <? SCALE config) eqn:Hs; [| discriminate].
  apply Nat.ltb_lt in Hs. intros [= <-]. repeat split. exact Hs.
Qed.

End Upsampling.

(** C6. In the SR controller with scale factor s, [forward] feeds the
    generator the low-resolution image upsampled by the transposed
    convolution with the fixed kernel: a low-resolution batch of images
    of H×W pixels becomes one of sH×sW pixels, a pixel of it is non-zero
    only where both its row and its column are multiples of s, and its
    every s-th row and column are the low-resolution batch again. *)
Theorem SR_upsampling `{Torch} (config : config) (g d : network) (s0 : model)
    (w : world) (lr_images hr_edges : tensor) (b h wd : nat) :
  SRModel.__init__ config g d = Ok s0 ->
  cfg (self w) = config ->
  scale_kernel (self w) = scale_kernel s0 ->
  shaped b 3 h wd (value (self w) lr_images) ->
  exists hr_images w',
    SRModel.forward lr_images hr_edges w
      = Ok (generator_forward (cat hr_images hr_edges), w')
    /\ shaped b 3 (SCALE config * h) (SCALE config * wd) (value (self w) hr_images)
    /\ (forall n c y x img ch row v,
          value (self w) hr_images !! n = Some img -> img !! c = Some ch ->
          ch !! y = Some row -> row !! x = Some v -> v <> Q2Qc 0 ->
          (y mod SCALE config = 0 /\ x mod SCALE config = 0)%nat)
    /\ downsample (SCALE config) (value (self w) hr_images) = value (self w) lr_images.
Proof.
  intros Hinit Hcfg Hkernel [Hb Himgs].
  destruct (SRModel_init_kernel config g d s0 Hinit) as (Hs & Hk & _).
  exists (conv_transpose2d lr_images (scale_kernel (self w)) 0 (SCALE (cfg (self w))) 3).
  exists (logged w [ev_forward Gen
                      (cat (conv_transpose2d lr_images (scale_kernel (self w)) 0
                              (SCALE (cfg (self w))) 3) hr_edges)]).
  split; [reflexivity |].
  cbn [value]. rewrite Hkernel, Hk, Hcfg.
  assert (H3 : Forall (fun img : list (list (list Qc)) => length img = 3%nat)
                 (value (self w) lr_images)).
  { eapply Forall_impl; [exact Himgs |]. now intros img [Hlen _]. }
  rewrite (F_conv_transpose2d_unit _ _ Hs H3).
  split; [| split].
  - split; [now rewrite length_map |].
    apply Forall_map. eapply Forall_impl; [exact Himgs |].
    intros img [Hlen Hchs]. cbn beta. split; [now rewrite length_map |].
    apply Forall_map. eapply Forall_impl; [exact Hchs |].
    intros ch Hch. now apply upsample_channel_rect.
  - intros n c y x img ch row v Himg Hch Hrow Hv Hne.
    rewrite list_lookup_fmap in Himg.
    destruct (value (self w) lr_images !! n) as [img0 |]; [| discriminate].
    cbn in Himg. injection Himg as <-.
    rewrite list_lookup_fmap in Hch.
    destruct (img0 !! c) as [ch0 |]; [| discriminate].
    cbn in Hch. injection Hch as <-.
    exact (upsample_channel_nonzero _ _ _ _ _ _ Hrow Hv Hne).
  - unfold downsample. rewrite map_map.
    etransitivity; [| apply map_id].
    apply map_ext_Forall. eapply Forall_impl; [exact Himgs |].
    intros img [_ Hchs]. cbn beta. rewrite map_map.
    etransitivity; [| apply map_id].
    apply map_ext_Forall. eapply Forall_impl; [exact Hchs |].
    intros ch Hch. cbn beta. now apply (downsample_upsample_channel _ h wd).
Qed.

Lemma SR_upsampling_witness :
  exists hr_images w',
    SRModel.forward (from_data example_lr_images)
      (from_data example_hr_edges) (start (example_model SR) ∅)
      = Ok (generator_forward (cat hr_images (from_data example_hr_edges)), w')
    /\ downsample 2 (value (H := example_torch) (example_model SR) hr_images)
       = example_lr_images.
Proof.
  destruct (SR_upsampling (H := example_torch) example_config example_generator
              example_discriminator (example_model SR) (start (example_model SR) ∅)
              (from_data example_lr_images) (from_data example_hr_edges) 1 2 2)
    as (hr_images & w' & Hrun & _ & _ & Hdown); try reflexivity.
  - repeat (split || constructor).
  - exists hr_images, w'. split; assumption.
Defined.

(** C9. A key that the loaded configuration does not hold reads as [None]:
    the access returns (it does not raise), the value is [None] and so is
    no number, and the table of defaults is not consulted, whatever it
    holds for that key. *)
Theorem Config_getattr_unset (self : Config.t) (key : string) :
  Config._dict self !! key = None ->
  Config.__getattr__ self key = Ok PyNone
  /\ (forall z, Config.__getattr__ self key <> Ok (PyInt z))
  /\ (forall q, Config.__getattr__ self key <> Ok (PyFloat q))
  /\ (forall e, Config.__getattr__ self key <> Raise e)
  /\ (forall d, Config.DEFAULT_CONFIG !! key = Some d -> d <> PyNone ->
        Config.__getattr__ self key <> Ok d).
Proof.
  intros Hunset.
  assert (Hget : Config.__getattr__ self key = Ok PyNone).
  { unfold Config.__getattr__, dict_get. now rewrite Hunset. }
  rewrite Hget. repeat split; try discriminate.
  intros d _ Hd Heq. injection Heq as <-. now apply Hd.
Qed.

Lemma Config_getattr_unset_witness :
  Config.__getattr__ (Config.__init__ "SCALE: 4" {[ "SCALE" := PyInt 4 ]} "checkpoints") "MODE"
    = Ok PyNone
  /\ Config.DEFAULT_CONFIG !! "MODE" = Some (PyInt 1).
Proof.
  split; [| reflexivity].
  apply (Config_getattr_unset
           (Config.__init__ "SCALE: 4" {[ "SCALE" := PyInt 4 ]} "checkpoints") "MODE").
  reflexivity.
Defined.
